(** * Chain-Fox rule engine: a shallow embedding of
      [integration/rule_engine/rule_engine_core.py]

    The development follows the Python module function by function:

    - [Str], [Re]  the string operations the module uses and the fragment of
                   Python's [re] that it compiles ([re.escape]d literals,
                   [x?], [\s*], [[^/]+], [$]), with [Pattern.search];
    - [load_filter_patterns], on the lines of the rule file;
    - [Py]         the values [json.load] returns, with the Python operations
                   the module applies to them ([in], [.get], [==], [hash],
                   iteration, item assignment) and the exceptions they
                   raise;
    - [apply_filter]: the package objects are mutated in place, so the two
                   loops are written over the list of these objects, and
                   [valid_packages] holds references into it;
    - [main], between its reads and its write;
    - the notions the properties are stated with, and the properties.

    Strings are [string]s whose characters stand for the code points 0..255;
    numbers are the integers of [json.load] (float literals are outside the
    model).  Reading and writing files is left out: [load_filter_patterns]
    takes the lines of the file, [apply_filter] the parsed document. *)

From Stdlib Require Import String Ascii List ZArith Bool Arith Lia Sorted.
Import ListNotations.
Local Open Scope string_scope.
Local Open Scope list_scope.

(** ** Strings *)

Module Str.

(** [str.isspace] on one character, for the code points below 256. *)
Definition isspace (c : ascii) : bool :=
  let n := nat_of_ascii c in
  (Nat.leb 9 n && Nat.leb n 13) || (Nat.leb 28 n && Nat.leb n 32)
  || Nat.eqb n 133 || Nat.eqb n 160.

Fixpoint lstrip (s : string) : string :=
  match s with
  | String c s' => if isspace c then lstrip s' else s
  | EmptyString => EmptyString
  end.

(** Drops the trailing whitespace: a character is kept when something that is
    kept follows it, or when it is not whitespace itself. *)
Fixpoint rstrip (s : string) : string :=
  match s with
  | String c s' =>
      match rstrip s' with
      | EmptyString => if isspace c then EmptyString else String c EmptyString
      | t => String c t
      end
  | EmptyString => EmptyString
  end.

(** [s.strip()] *)
Definition strip (s : string) : string := rstrip (lstrip s).

(** [c in s] for a one-character [c]. *)
Fixpoint has_char (c : ascii) (s : string) : bool :=
  match s with
  | String x s' => Ascii.eqb x c || has_char c s'
  | EmptyString => false
  end.

(** [s.split(c, 1)]: what is before the first [c] and what is after it; the
    whole of [s] and nothing when [c] does not occur. *)
Fixpoint split_once (c : ascii) (s : string) : string * string :=
  match s with
  | String x s' =>
      if Ascii.eqb x c then (EmptyString, s')
      else let (a, b) := split_once c s' in (String x a, b)
  | EmptyString => (EmptyString, EmptyString)
  end.

(** [s.split(c)[0]] *)
Definition split_head (c : ascii) (s : string) : string := fst (split_once c s).

(** [needle in s] for strings: [needle] starts at some position of [s]. *)
Fixpoint contains (needle s : string) : bool :=
  String.prefix needle s ||
  match s with
  | String _ s' => contains needle s'
  | EmptyString => false
  end.

End Str.

(** ** Regular expressions *)

Module Re.

(** The module compiles patterns of one shape only: a sequence of
    single-character atoms, each with a quantifier, and the anchor [$].  A
    [Pattern] is that sequence, the parsed form of the pattern's source text
    (the parser of [re.compile] is not modelled). *)
Inductive atom : Type :=
| Chr (c : ascii)          (* a literal character, escaped or not *)
| NotChr (c : ascii)       (* [^c] *)
| Space.                   (* \s *)

Inductive quant : Type :=
| One                      (* no quantifier *)
| Opt                      (* ? *)
| Star                     (* * *)
| Plus.                    (* + *)

Inductive item : Type :=
| Item (a : atom) (q : quant)
| Eos.                     (* $ *)

Definition Pattern : Type := list item.

Definition atom_matches (a : atom) (c : ascii) : bool :=
  match a with
  | Chr x => Ascii.eqb x c
  | NotChr x => negb (Ascii.eqb x c)
  | Space => Str.isspace c
  end.

(** [$] without [re.MULTILINE]: at the end of the string, or just before a
    newline that ends the string. *)
Definition at_end (s : string) : bool :=
  match s with
  | EmptyString => true
  | String c EmptyString => Ascii.eqb c "010"%char
  | _ => false
  end.

(** A starred atom followed by the rest of the pattern, [k]: the rest matches
    here, or the atom takes one character and the same is tried again. *)
Fixpoint star (a : atom) (k : string -> bool) (s : string) : bool :=
  k s ||
  match s with
  | String c s' => atom_matches a c && star a k s'
  | EmptyString => false
  end.

(** Does [p] match some prefix of [s]?  Only whether a match exists is
    observed by [search], so the order in which a backtracking matcher tries
    the alternatives of a quantifier does not matter. *)
Fixpoint match_here (p : Pattern) (s : string) : bool :=
  match p with
  | [] => true
  | Eos :: p' => at_end s && match_here p' s
  | Item a One :: p' =>
      match s with
      | String c s' => atom_matches a c && match_here p' s'
      | EmptyString => false
      end
  | Item a Opt :: p' =>
      match_here p' s ||
      match s with
      | String c s' => atom_matches a c && match_here p' s'
      | EmptyString => false
      end
  | Item a Star :: p' => star a (match_here p') s
  | Item a Plus :: p' =>
      match s with
      | String c s' => atom_matches a c && star a (match_here p') s'
      | EmptyString => false
      end
  end.

(** [p.search(s)] as a truth value: [p] matches at some position of [s]. *)
Fixpoint search (p : Pattern) (s : string) : bool :=
  match_here p s ||
  match s with
  | String _ s' => search p s'
  | EmptyString => false
  end.

(** The pattern whose source is [re.escape(s)]: every character of [s],
    literally. *)
Definition escape (s : string) : Pattern :=
  map (fun c => Item (Chr c) One) (list_ascii_of_string s).

End Re.

(** ** [load_filter_patterns] *)

(** The five hardcoded rules, in the order they are appended. *)
Definition builtin_rules : list Re.Pattern :=
  [ (* \(?virtual\)?\s*lockbud *)
    [Re.Item (Re.Chr "(") Re.Opt] ++ Re.escape "virtual"
      ++ [Re.Item (Re.Chr ")") Re.Opt; Re.Item Re.Space Re.Star]
      ++ Re.escape "lockbud";
    (* \(?virtual\)?\s*audit *)
    [Re.Item (Re.Chr "(") Re.Opt] ++ Re.escape "virtual"
      ++ [Re.Item (Re.Chr ")") Re.Opt; Re.Item Re.Space Re.Star]
      ++ Re.escape "audit";
    (* /Cargo\.lock$ *)
    Re.escape "/Cargo.lock" ++ [Re.Eos];
    (* \[lockbud\] Not supported to display yet\. *)
    Re.escape "[lockbud] Not supported to display yet.";
    (* rustlib/src/rust/library *)
    Re.escape "rustlib/src/rust/library" ].

(** The pattern one rule-file line compiles to, if any. *)
Definition compile_line (line : string) : option Re.Pattern :=
  let path := Str.strip line in
  if String.eqb path "" then None
  else if Str.has_char "/" path then
    let (crate_with_version, subpath) := Str.split_once "/" path in
    let crate_name := Str.split_head "-" crate_with_version in
    Some (Re.escape crate_name
            ++ [Re.Item (Re.Chr "-") Re.One;
                Re.Item (Re.NotChr "/") Re.Plus;
                Re.Item (Re.Chr "/") Re.One]
            ++ Re.escape subpath)
  else Some (Re.escape path).

(** [load_filter_patterns], on the lines the file iterator yields (each with
    its line end, if it has one). *)
Fixpoint load_lines (lines : list string) : list Re.Pattern :=
  match lines with
  | [] => []
  | line :: rest =>
      match compile_line line with
      | Some regex => regex :: load_lines rest
      | None => load_lines rest
      end
  end.

Definition load_filter_patterns (lines : list string) : list Re.Pattern :=
  load_lines lines ++ builtin_rules.

(** ** Python values and operations *)

Module Py.

(** What [json.load] returns: [None], [bool], [int], [str], [list] and [dict]
    (with [str] keys, in insertion order). *)
#[local] Set Warnings "-register-all".
Inductive value : Type :=
| VNone
| VBool (b : bool)
| VInt (n : Z)
| VStr (s : string)
| VList (l : list value)
| VDict (d : list (string * value)).

(** The exceptions.  [TypeError] and [AttributeError] are what the operations
    below raise; [MalformedInputError] is the error kind the specification
    names for a structurally malformed document. *)
Inductive exn : Type :=
| TypeError
| AttributeError
| MalformedInputError.

Inductive result (A : Type) : Type :=
| Ok (a : A)
| Raise (e : exn).
Arguments Ok {A} a.
Arguments Raise {A} e.

Definition bind {A B : Type} (m : result A) (k : A -> result B) : result B :=
  match m with
  | Ok a => k a
  | Raise e => Raise e
  end.

(** *** Dictionaries *)

Definition dict : Type := list (string * value).

Fixpoint dict_get {A : Type} (k : string) (d : list (string * A)) : option A :=
  match d with
  | [] => None
  | (k', v) :: d' => if String.eqb k' k then Some v else dict_get k d'
  end.

Definition dict_has {A : Type} (k : string) (d : list (string * A)) : bool :=
  match dict_get k d with
  | Some _ => true
  | None => false
  end.

(** [d[k] = v]: an existing key keeps its place, a new one goes last. *)
Fixpoint dict_set {A : Type} (k : string) (v : A) (d : list (string * A))
  : list (string * A) :=
  match d with
  | [] => [(k, v)]
  | (k', v') :: d' =>
      if String.eqb k' k then (k', v) :: d' else (k', v') :: dict_set k v d'
  end.

Definition keys {A : Type} (d : list (string * A)) : list string := map fst d.

(** *** Equality *)

(** [a == b].  [bool] is a subclass of [int], so [True == 1]; lists are equal
    when they have the same length and equal elements; dictionaries when they
    have equal (key, value) pairs: every key of [a] is bound in [b] to an
    equal value, and every key of [b] is a key of [a]. *)
Fixpoint eq (a b : value) : bool :=
  match a, b with
  | VNone, VNone => true
  | VBool x, VBool y => Bool.eqb x y
  | VBool x, VInt n => Z.eqb (Z.b2z x) n
  | VInt n, VBool x => Z.eqb n (Z.b2z x)
  | VInt m, VInt n => Z.eqb m n
  | VStr s, VStr t => String.eqb s t
  | VList l, VList l' =>
      (fix all2 (l l' : list value) : bool :=
         match l, l' with
         | [], [] => true
         | x :: xs, y :: ys => eq x y && all2 xs ys
         | _, _ => false
         end) l l'
  | VDict d, VDict d' =>
      (fix all (d : list (string * value)) : bool :=
         match d with
         | [] => true
         | (k, v) :: r =>
             match dict_get k d' with
             | Some v' => eq v v'
             | None => false
             end && all r
         end) d
      && forallb (fun k => dict_has k d) (keys d')
  | _, _ => false
  end.

(** [hash(v)] succeeds on everything but lists and dictionaries. *)
Definition hashable (v : value) : bool :=
  match v with
  | VList _ | VDict _ => false
  | _ => true
  end.

Definition hash (v : value) : result unit :=
  if hashable v then Ok tt else Raise TypeError.

(** *** Attribute access, membership, iteration, item assignment *)

(** [o.get(k, default)]: only a [dict] has a [get]. *)
Definition get (o : value) (k : string) (default : value) : result value :=
  match o with
  | VDict d =>
      match dict_get k d with
      | Some v => Ok v
      | None => Ok default
      end
  | _ => Raise AttributeError
  end.

(** [needle in o] for a [str] needle: a key of a [dict], an element of a
    [list], a substring of a [str]; the other values are not containers. *)
Definition contains (needle : string) (o : value) : result bool :=
  match o with
  | VDict d => Ok (dict_has needle d)
  | VList l => Ok (existsb (fun e => eq (VStr needle) e) l)
  | VStr s => Ok (Str.contains needle s)
  | _ => Raise TypeError
  end.

(** The objects [for x in o] binds [x] to: the elements of a [list], the keys
    of a [dict], the characters of a [str]. *)
Definition iter (o : value) : result (list value) :=
  match o with
  | VList l => Ok l
  | VDict d => Ok (map VStr (keys d))
  | VStr s => Ok (map (fun c => VStr (String c EmptyString)) (list_ascii_of_string s))
  | _ => Raise TypeError
  end.

(** [o[k] = v] for a [str] key [k]: only a [dict] takes it. *)
Definition setitem (o : value) (k : string) (v : value) : result value :=
  match o with
  | VDict d => Ok (VDict (dict_set k v d))
  | _ => Raise TypeError
  end.

(** *** A [dict] with hashable keys, as [all_files_pkg] is: key to [set] *)

Definition table : Type := list (value * list value).

(** Is some key of [t] equal to [k]? *)
Definition table_mem (k : value) (t : table) : bool :=
  existsb (fun e => eq (fst e) k) t.

(** [k in t]: [k] is hashed first. *)
Definition table_has (k : value) (t : table) : result bool :=
  if hashable k then Ok (table_mem k t) else Raise TypeError.

(** [s.add(x)] *)
Definition set_add (x : value) (s : list value) : list value :=
  if existsb (fun e => eq e x) s then s else s ++ [x].

(** [t[k].add(x)] for a key [k] that [t] has. *)
Fixpoint table_add (k x : value) (t : table) : table :=
  match t with
  | [] => []
  | (k', s) :: t' =>
      if eq k' k then (k', set_add x s) :: t' else (k', s) :: table_add k x t'
  end.

End Py.

Declare Scope py_scope.
Delimit Scope py_scope with py.
Notation "x <- m ;; k" := (Py.bind m (fun x => k))
  (at level 61, m at next level, right associativity) : py_scope.
Notation "' p <- m ;; k" := (Py.bind m (fun x => match x with p => k end))
  (at level 61, p pattern, m at next level, right associativity) : py_scope.
Local Open Scope py_scope.

(** ** [apply_filter] *)

Section ApplyFilter.

Import Py.

(** The compiled rules: any type of patterns with a [search] that tells
    whether the pattern is found in a string. *)
Context {Pattern : Type} (search : Pattern -> string -> bool).

(** [regex.search(x)]: [x] has to be a [str]. *)
Definition regex_search (regex : Pattern) (x : value) : result bool :=
  match x with
  | VStr s => Ok (search regex s)
  | _ => Raise TypeError
  end.

(** [any(regex.search(report.get("file", "")) for regex in filters)]: the
    generator evaluates [report.get] once per rule, and stops at the first
    rule that is found. *)
Fixpoint any_match (filters : list Pattern) (report : value) : result bool :=
  match filters with
  | [] => Ok false
  | regex :: rest =>
      file <- get report "file" (VStr "");;
      found <- regex_search regex file;;
      if found then Ok true else any_match rest report
  end.

(** [[report for report in raw_reports if not any(...)]] *)
Fixpoint filter_reports (filters : list Pattern) (raw_reports : list value)
  : result (list value) :=
  match raw_reports with
  | [] => Ok []
  | report :: rest =>
      matched <- any_match filters report;;
      kept <- filter_reports filters rest;;
      Ok (if matched then kept else report :: kept)
  end.

(** The package objects are the elements of [data["data"]]; a package object
    is known by its position in that list, and [valid_packages] holds such
    positions: an entry of [valid_packages] is the object, whatever was
    assigned to its keys since it was appended.  [visited] are the objects
    the first loop has left, in their current state; the object the loop is
    at comes next, at position [length visited]. *)
Definition deref (heap : list value) (ref : nat) : value := nth ref heap VNone.

(** [package in valid_packages], for the object at position [me] whose
    current state is [package]: some entry is that object, or equals it. *)
Definition package_in (visited : list value) (me : nat) (package : value)
    (valid_packages : list nat) : bool :=
  existsb (fun ref => Nat.eqb ref me || eq package (deref visited ref))
          valid_packages.

(** What the body of [for raw_report in filtered] changes. *)
Record locals : Type := Locals {
  package : value;
  all_files_pkg : table;
  valid_packages : list nat
}.

(** One turn of [for raw_report in filtered]. *)
Definition visit_report (visited : list value) (pkg_name : value)
    (filtered : list value) (st : locals) (raw_report : value)
  : result locals :=
  file <- get raw_report "file" (VStr "");;
  seen <- table_has file (all_files_pkg st);;
  if seen then
    _ <- hash pkg_name;;
    Ok (Locals (package st)
               (table_add file pkg_name (all_files_pkg st))
               (valid_packages st))
  else
    _ <- hash pkg_name;;
    let files := all_files_pkg st ++ [(file, [pkg_name])] in
    let count := length filtered in
    if Nat.ltb 0 count then
      p <- setitem (package st) "raw_reports" (VList filtered);;
      p <- setitem p "count" (VInt (Z.of_nat (length filtered)));;
      let me := length visited in
      if package_in visited me p (valid_packages st)
      then Ok (Locals p files (valid_packages st))
      else Ok (Locals p files (valid_packages st ++ [me]))
    else Ok (Locals (package st) files (valid_packages st)).

Fixpoint visit_reports (visited : list value) (pkg_name : value)
    (filtered : list value) (st : locals) (todo : list value)
  : result locals :=
  match todo with
  | [] => Ok st
  | raw_report :: rest =>
      st' <- visit_report visited pkg_name filtered st raw_report;;
      visit_reports visited pkg_name filtered st' rest
  end.

(** The list [filtered] of a package object. *)
Definition filtered_reports (filters : list Pattern) (obj : value)
  : result (list value) :=
  raw_reports <- get obj "raw_reports" (VList []);;
  reports <- iter raw_reports;;
  filter_reports filters reports.

(** One turn of the first [for package in data.get("data", [])]. *)
Definition visit_package (filters : list Pattern) (visited : list value)
    (files : table) (valid : list nat) (obj : value) : result locals :=
  pkg_name <- get obj "pkg" (VStr "");;
  filtered <- filtered_reports filters obj;;
  visit_reports visited pkg_name filtered (Locals obj files valid) filtered.

(** The first loop, from the objects still to visit: the objects in their
    final state, [all_files_pkg] and [valid_packages]. *)
Fixpoint first_pass (filters : list Pattern) (visited : list value)
    (files : table) (valid : list nat) (todo : list value)
  : result (list value * table * list nat) :=
  match todo with
  | [] => Ok (visited, files, valid)
  | obj :: rest =>
      st <- visit_package filters visited files valid obj;;
      first_pass filters (visited ++ [package st]) (all_files_pkg st)
                 (valid_packages st) rest
  end.

(** [for raw_report in raw_reports] of the second loop: the first report
    whose [file] contains [Cargo.lock]. *)
Fixpoint find_lockfile (raw_reports : list value) : result (option value) :=
  match raw_reports with
  | [] => Ok None
  | raw_report :: rest =>
      file <- get raw_report "file" (VStr "");;
      found <- contains "Cargo.lock" file;;
      if found then Ok (Some raw_report) else find_lockfile rest
  end.

(** The body of the second [for package in data.get("data", [])], up to the
    test of [exists]. *)
Definition scan_package (obj : value) : result (option value) :=
  pkg_name <- get obj "pkg" (VStr "");;
  raw_reports <- get obj "raw_reports" (VList []);;
  reports <- iter raw_reports;;
  find_lockfile reports.

(** The second loop: it walks the same objects, in the state the first loop
    left them in, and stops at the first package with such a report. *)
Fixpoint second_pass (heap : list value) : result (option value) :=
  match heap with
  | [] => Ok None
  | obj :: rest =>
      found <- scan_package obj;;
      match found with
      | Some raw_report => Ok (Some raw_report)
      | None => second_pass rest
      end
  end.

Definition option_list {A : Type} (o : option A) : list A :=
  match o with
  | Some a => [a]
  | None => []
  end.

(** [apply_filter(data, filters)]: the state of the object [data] when the
    call returns, or the exception the call raises. *)
Definition apply_filter (data : value) (filters : list Pattern)
  : result value :=
  has_data <- contains "data" data;;
  if negb has_data then Ok data
  else
    packages <- get data "data" (VList []);;
    todo <- iter packages;;
    '(heap, _, valid) <- first_pass filters [] [] [] todo;;
    lockfile <- second_pass heap;;
    setitem data "data"
            (VList (map (deref heap) valid ++ option_list lockfile)).

End ApplyFilter.

(** ** Notions the properties are stated with *)

Section Notions.
Import Py.
Context {Pattern : Type} (search : Pattern -> string -> bool).

(** The [file] of a report, where [report.get("file", "")] returns. *)
Definition file_val (report : value) : value :=
  match get report "file" (VStr "") with
  | Ok file => file
  | Raise _ => VNone
  end.

(** The list [filtered] of a package, where its computation returns, and the
    files of its reports. *)
Definition kept_reports (filters : list Pattern) (obj : value) : list value :=
  match filtered_reports search filters obj with
  | Ok filtered => filtered
  | Raise _ => []
  end.

Definition kept_files (filters : list Pattern) (obj : value) : list value :=
  map file_val (kept_reports filters obj).

(** Does a kept report of the packages [earlier] have a file equal to
    [file]? *)
Definition seen_before (filters : list Pattern) (earlier : list value)
    (file : value) : bool :=
  existsb (fun file' => eq file' file) (flat_map (kept_files filters) earlier).

(** Does [obj] keep a report on a file that no package of [earlier] keeps a
    report on? *)
Definition brings_new (filters : list Pattern) (earlier : list value)
    (obj : value) : bool :=
  existsb (fun file => negb (seen_before filters earlier file))
          (kept_files filters obj).

(** A package object after [package["raw_reports"] = filtered] and
    [package["count"] = len(filtered)]. *)
Definition assigned (filtered : list value) (obj : value) : value :=
  match obj with
  | VDict d =>
      VDict (dict_set "count" (VInt (Z.of_nat (length filtered)))
               (dict_set "raw_reports" (VList filtered) d))
  | _ => obj
  end.

(** The positions, from [i] on, of the packages of [todo] that bring a new
    file, [earlier] being the packages before them. *)
Fixpoint survivors_from (filters : list Pattern) (earlier todo : list value)
    (i : nat) : list nat :=
  match todo with
  | [] => []
  | obj :: rest =>
      (if brings_new filters earlier obj then [i] else [])
      ++ survivors_from filters (earlier ++ [obj]) rest (S i)
  end.

(** The packages of [todo], those that bring a new file with their kept
    reports assigned to them, the others as they are. *)
Fixpoint states_from (filters : list Pattern) (earlier todo : list value)
  : list value :=
  match todo with
  | [] => []
  | obj :: rest =>
      (if brings_new filters earlier obj
       then assigned (kept_reports filters obj) obj else obj)
      :: states_from filters (earlier ++ [obj]) rest
  end.

(** [report.get("file", "")] returns something hashable. *)
Definition hashable_file (report : value) : bool :=
  match report with
  | VDict _ => hashable (file_val report)
  | _ => false
  end.

(** Does [reports] hold a report whose file is not a key of [files]? *)
Definition new_in (files : table) (reports : list value) : bool :=
  existsb (fun report => negb (table_mem (file_val report) files)) reports.

(** The invariant of [for raw_report in filtered], for the package object
    [obj] at position [me]: [files0] and [valid0] are [all_files_pkg] and
    [valid_packages] at the start of the loop, [done] the reports visited so
    far, [st] the current state.  The object has been assigned to, and is in
    [valid_packages], as soon as a visited report was on a new file. *)
Definition report_loop_inv (visited : list value) (pkg_name : value)
    (filtered : list value) (obj : value) (files0 : table)
    (valid0 : list nat) (done : list value) (st : locals) : Prop :=
  package st = (if new_in files0 done then assigned filtered obj else obj)
  /\ (new_in files0 done = true -> exists d, obj = VDict d)
  /\ (valid_packages st = valid0 \/
      (new_in files0 done = true /\
       valid_packages st = valid0 ++ [length visited]))
  /\ (new_in files0 done = true ->
      package_in visited (length visited) (assigned filtered obj)
                 (valid_packages st) = true)
  /\ (forall file,
        table_mem file (all_files_pkg st)
        = table_mem file files0
          || existsb (fun report => eq (file_val report) file) done)
  /\ forallb hashable_file done = true
  /\ (done <> [] -> hashable pkg_name = true).

(** The invariant of the first [for package in data.get("data", [])]: [orig]
    are the packages visited so far as the loop found them, [visited] their
    current states.  The keys of [all_files_pkg] are the files of the kept
    reports so far, and an entry of [valid_packages] is a visited object whose
    [raw_reports] is a list of reports on files that are keys. *)
Definition first_pass_inv (filters : list Pattern) (orig visited : list value)
    (files : table) (valid : list nat) : Prop :=
  length visited = length orig
  /\ (forall file, table_mem file files = seen_before filters orig file)
  /\ (forall ref,
        In ref valid ->
        ref < length visited /\
        exists d reports,
          deref visited ref = VDict d /\
          dict_get "raw_reports" d = Some (VList reports) /\
          forallb hashable_file reports = true /\
          forall report,
            In report reports -> table_mem (file_val report) files = true).

(** A rule is found in the file of a report. *)
Definition matches (filters : list Pattern) (report : value) : Prop :=
  exists regex s,
    In regex filters /\ file_val report = VStr s /\ search regex s = true.

(** What C4 asks of a retained package: its [raw_reports] is a list of
    reports in whose file no rule is found, and [count] is its length. *)
Definition retained_ok (filters : list Pattern) (entry : value) : Prop :=
  exists d reports,
    entry = VDict d /\
    dict_get "raw_reports" d = Some (VList reports) /\
    dict_get "count" d = Some (VInt (Z.of_nat (length reports))) /\
    Forall (fun report => ~ matches filters report) reports.

(** The packages of [todo] that bring a new file, with their kept reports
    assigned to them: the entries of [valid_packages], as values. *)
Fixpoint entries_from (filters : list Pattern) (earlier todo : list value)
  : list value :=
  match todo with
  | [] => []
  | obj :: rest =>
      (if brings_new filters earlier obj
       then [assigned (kept_reports filters obj) obj] else [])
      ++ entries_from filters (earlier ++ [obj]) rest
  end.

(** Is a rule found in the file of the report, where the test returns? *)
Definition found_in (filters : list Pattern) (report : value) : bool :=
  match any_match search filters report with
  | Ok found => found
  | Raise _ => false
  end.

(** The positions of the survivor packages of [todo], and the states of the
    packages of [todo] after the first loop. *)
Definition survivors (filters : list Pattern) (todo : list value) : list nat :=
  survivors_from filters [] todo 0.

Definition states (filters : list Pattern) (todo : list value) : list value :=
  states_from filters [] todo.

(** What a turn of the first loop that raises nothing tells about the package
    it visits. *)
Definition visited_ok (filters : list Pattern) (obj : value) : Prop :=
  (exists d, obj = VDict d)
  /\ filtered_reports search filters obj = Ok (kept_reports filters obj)
  /\ forallb hashable_file (kept_reports filters obj) = true
  /\ Forall (fun report => ~ matches filters report)
            (kept_reports filters obj).

End Notions.

(** Documents of the expected structure: a dictionary whose [data], if it has
    one, is a list of dictionaries; the [pkg] of each, if it has one, is
    hashable; [raw_reports], if it has one, is a list of dictionaries; the
    [file] of each, if it has one, is a string. *)
Module Shape.
Import Py.

Definition report_ok (report : value) : bool :=
  match report with
  | VDict d =>
      match dict_get "file" d with
      | None | Some (VStr _) => true
      | Some _ => false
      end
  | _ => false
  end.

Definition package_ok (obj : value) : bool :=
  match obj with
  | VDict d =>
      match dict_get "pkg" d with
      | None => true
      | Some name => hashable name
      end &&
      match dict_get "raw_reports" d with
      | None => true
      | Some (VList reports) => forallb report_ok reports
      | Some _ => false
      end
  | _ => false
  end.

Definition document_ok (doc : value) : bool :=
  match doc with
  | VDict d =>
      match dict_get "data" d with
      | None => true
      | Some (VList packages) => forallb package_ok packages
      | Some _ => false
      end
  | _ => false
  end.

(** The documents the specification calls structurally malformed: not a
    dictionary, or with a [data] that is not a list. *)
Definition malformed (doc : value) : bool :=
  match doc with
  | VDict d =>
      match dict_get "data" d with
      | None | Some (VList _) => false
      | Some _ => true
      end
  | _ => true
  end.

(** No report of the package has a [raw_reports] key of its own. *)
Definition plain_reports (obj : value) : bool :=
  match obj with
  | VDict d =>
      match dict_get "raw_reports" d with
      | Some (VList reports) =>
          forallb (fun report =>
                     match report with
                     | VDict r => negb (dict_has "raw_reports" r)
                     | _ => true
                     end) reports
      | _ => true
      end
  | _ => true
  end.

End Shape.

(** ** Documents of the examples *)

Module Examples.
Import Py.

Definition report (file : string) : value := VDict [("file", VStr file)].

Definition pkg (name : string) (reports : list value) : value :=
  VDict [("pkg", VStr name); ("raw_reports", VList reports)].

(** A package as the first loop leaves it once it has assigned to it. *)
Definition filtered_pkg (name : string) (reports : list value) : value :=
  VDict [("pkg", VStr name); ("raw_reports", VList reports);
         ("count", VInt (Z.of_nat (length reports)))].

Definition document (packages : list value) : value :=
  VDict [("data", VList packages)].

(** The rules of an empty rule file: the five hardcoded ones. *)
Definition builtins : list Re.Pattern := load_filter_patterns [].

Definition newline : string := String "010"%char EmptyString.

(** One package with a lockfile report and a report on a source file. *)
Definition lockfile_and_source : value :=
  document [pkg "p1" [report "x/Cargo.lock"; report "src/main.rs"]].

(** One package whose only report is a lockfile report. *)
Definition lockfile_only : value :=
  document [pkg "p1" [report "x/Cargo.lock"]].

(** One package whose only report is on [Cargo.lock], without a directory. *)
Definition bare_lockfile : value :=
  document [pkg "p1" [report "Cargo.lock"]].

(** A package whose only report is a lockfile report, then a package with a
    report on a source file. *)
Definition lockfile_then_source : list value :=
  [pkg "p1" [report "x/Cargo.lock"]; pkg "p2" [report "src/main.rs"]].

(** Two packages whose only report is on [shared/dep.rs]. *)
Definition shared_only : list value :=
  [pkg "a" [report "shared/dep.rs"]; pkg "b" [report "shared/dep.rs"]].

(** A package without [pkg], with a report without [file]. *)
Definition nameless : value :=
  document [VDict [("raw_reports", VList [VDict [("line", VInt 7)]])]].

(** Two packages with a report on [shared/dep.rs], the second with a report
    of its own too. *)
Definition shared_dep : value :=
  document [pkg "a" [report "shared/dep.rs"];
            pkg "b" [report "shared/dep.rs"; report "b/own.rs"]].

End Examples.

(** ** [main] *)

(** [main] between its reads and its write: from the lines of the rule file
    and the document [load_analysis_result] returns, the document handed to
    [write_filtered_result], or the exception [apply_filter] raises.  (The
    choice of the input path, the printing of the rules, the parsing and the
    printing of JSON are left out.) *)
Definition main (rule_lines : list string) (result : Py.value)
  : Py.result Py.value :=
  let filters := load_filter_patterns rule_lines in
  apply_filter Re.search result filters.

(** * Properties *)

(** ** Strings and patterns *)

Section Patterns.

Lemma append_assoc (a b c : string) :
  ((a ++ b) ++ c = a ++ (b ++ c))%string.
Proof. induction a as [|x a IH]; simpl; [reflexivity | now rewrite IH]. Qed.

Lemma escape_cons (c : ascii) (s : string) :
  Re.escape (String c s) = Re.Item (Re.Chr c) Re.One :: Re.escape s.
Proof. reflexivity. Qed.

(** A literal followed by [p] matches the strings that start with the literal
    and go on with a match of [p]. *)
Lemma match_here_escape (lit : string) (p : Re.Pattern) (s : string) :
  Re.match_here (Re.escape lit ++ p) s = true <->
  exists rest, s = (lit ++ rest)%string /\ Re.match_here p rest = true.
Proof.
  revert s; induction lit as [|c lit IH]; intros s.
  - simpl. split; [intros H; now exists s | intros (rest & -> & H); exact H].
  - rewrite escape_cons. simpl. destruct s as [|x s].
    + split; [discriminate | intros (rest & E & _); discriminate].
    + rewrite andb_true_iff, IH, Ascii.eqb_eq. split.
      * intros (-> & rest & -> & H). now exists rest.
      * intros (rest & E & H). injection E as -> ->. split; [reflexivity|].
        now exists rest.
Qed.

(** [[^c]*] followed by [k]: a run of characters other than [c], then [k]. *)
Lemma star_not_chr (c : ascii) (k : string -> bool) (s : string) :
  Re.star (Re.NotChr c) k s = true <->
  exists run rest,
    Str.has_char c run = false /\ s = (run ++ rest)%string /\ k rest = true.
Proof.
  induction s as [|x s IH]; simpl.
  - rewrite orb_false_r. split.
    + intros H. exists "", "". now repeat split.
    + intros (run & rest & _ & E & H). destruct run; [|discriminate].
      simpl in E. now subst rest.
  - rewrite orb_true_iff, andb_true_iff, IH, negb_true_iff. split.
    + intros [H | (Hx & run & rest & Hrun & -> & H)].
      * exists "", (String x s). now repeat split.
      * exists (String x run), rest. simpl.
        rewrite Ascii.eqb_sym, Hx, Hrun. now repeat split.
    + intros (run & rest & Hrun & E & H). destruct run as [|y run].
      * simpl in E. subst rest. now left.
      * simpl in E. injection E as -> ->. simpl in Hrun.
        apply orb_false_iff in Hrun as [Hy Hrun]. right. split.
        -- now rewrite Ascii.eqb_sym.
        -- now exists run, rest.
Qed.

Lemma search_iff (p : Re.Pattern) (s : string) :
  Re.search p s = true <->
  exists pre rest, s = (pre ++ rest)%string /\ Re.match_here p rest = true.
Proof.
  induction s as [|x s IH]; simpl.
  - rewrite orb_false_r. split.
    + intros H. now exists "", "".
    + intros (pre & rest & E & H). destruct pre; [|discriminate].
      simpl in E. now subst rest.
  - rewrite orb_true_iff, IH. split.
    + intros [H | (pre & rest & -> & H)].
      * now exists "", (String x s).
      * now exists (String x pre), rest.
    + intros (pre & rest & E & H). destruct pre as [|y pre].
      * simpl in E. subst rest. now left.
      * simpl in E. injection E as -> ->. right. now exists pre, rest.
Qed.

Lemma match_here_chr (c : ascii) (p : Re.Pattern) (s : string) :
  Re.match_here (Re.Item (Re.Chr c) Re.One :: p) s = true <->
  exists rest, s = String c rest /\ Re.match_here p rest = true.
Proof.
  cbn [Re.match_here Re.atom_matches]. destruct s as [|x s].
  - split; [discriminate | intros (rest & E & _); discriminate].
  - rewrite andb_true_iff, Ascii.eqb_eq. split.
    + intros (-> & H). now exists s.
    + intros (rest & E & H). injection E as -> ->. now split.
Qed.

Lemma match_here_plus_not_chr (c : ascii) (p : Re.Pattern) (s : string) :
  Re.match_here (Re.Item (Re.NotChr c) Re.Plus :: p) s = true <->
  exists run rest,
    run <> "" /\ Str.has_char c run = false /\
    s = (run ++ rest)%string /\ Re.match_here p rest = true.
Proof.
  cbn [Re.match_here Re.atom_matches]. destruct s as [|x s].
  - split; [discriminate|].
    intros (run & rest & Hne & _ & E & _). destruct run; [congruence|].
    discriminate.
  - rewrite andb_true_iff, star_not_chr, negb_true_iff. split.
    + intros (Hx & run & rest & Hrun & -> & H).
      exists (String x run), rest. repeat split; [discriminate| |exact H].
      cbn [Str.has_char]. now rewrite Ascii.eqb_sym, Hx, Hrun.
    + intros (run & rest & Hne & Hrun & E & H).
      destruct run as [|y run]; [congruence|].
      cbn [String.append] in E. injection E as -> ->.
      cbn [Str.has_char] in Hrun. apply orb_false_iff in Hrun as [Hy Hrun].
      split; [now rewrite Ascii.eqb_sym|]. now exists run, rest.
Qed.

(** What a pattern [crate-[^/]+/subpath] finds. *)
Lemma search_crate_rule (crate subpath s : string) :
  Re.search (Re.escape crate
               ++ [Re.Item (Re.Chr "-") Re.One;
                   Re.Item (Re.NotChr "/") Re.Plus;
                   Re.Item (Re.Chr "/") Re.One]
               ++ Re.escape subpath) s = true <->
  exists pre version post,
    version <> "" /\ Str.has_char "/" version = false /\
    s = (pre ++ crate ++ "-" ++ version ++ "/" ++ subpath ++ post)%string.
Proof.
  rewrite search_iff. split.
  - intros (pre & rest & -> & H).
    apply match_here_escape in H as (r1 & -> & H).
    cbn [app] in H.
    apply match_here_chr in H as (r2 & -> & H).
    apply match_here_plus_not_chr in H as (run & r3 & Hne & Hrun & -> & H).
    apply match_here_chr in H as (r4 & -> & H).
    rewrite <- (app_nil_r (Re.escape subpath)) in H.
    apply match_here_escape in H as (post & -> & _).
    exists pre, run, post. repeat split; [exact Hne | exact Hrun].
  - intros (pre & version & post & Hne & Hv & ->).
    exists pre, (crate ++ "-" ++ version ++ "/" ++ subpath ++ post)%string.
    split; [reflexivity|].
    apply match_here_escape. eexists. split; [reflexivity|].
    cbn [app]. apply match_here_chr. eexists. split; [reflexivity|].
    apply match_here_plus_not_chr.
    exists version, ("/" ++ subpath ++ post)%string.
    repeat split; [exact Hne | exact Hv|].
    apply match_here_chr. eexists. split; [reflexivity|].
    rewrite <- (app_nil_r (Re.escape subpath)).
    apply match_here_escape. now exists post.
Qed.

Lemma load_lines_app (l1 l2 : list string) :
  load_lines (l1 ++ l2) = load_lines l1 ++ load_lines l2.
Proof.
  induction l1 as [|line l1 IH]; simpl; [reflexivity|].
  destruct (compile_line line); simpl; now rewrite IH.
Qed.

Lemma compile_blank (line : string) :
  Str.strip line = "" -> compile_line line = None.
Proof. unfold compile_line. now intros ->. Qed.

Lemma compile_slash (line : string) :
  Str.has_char "/" (Str.strip line) = true ->
  compile_line line =
    Some (Re.escape
            (Str.split_head "-" (fst (Str.split_once "/" (Str.strip line))))
            ++ [Re.Item (Re.Chr "-") Re.One;
                Re.Item (Re.NotChr "/") Re.Plus;
                Re.Item (Re.Chr "/") Re.One]
            ++ Re.escape (snd (Str.split_once "/" (Str.strip line)))).
Proof.
  intros H. unfold compile_line. rewrite H.
  destruct (Str.strip line) as [|c path] eqn:E; [discriminate|].
  simpl String.eqb. cbv iota.
  now destruct (Str.split_once "/" (String c path)).
Qed.

(** C7.  Blank lines of the rule file (blank once stripped) produce no rule;
    a line with a [/] produces the rule [crate-[^/]+/subpath], whose only
    wildcard is the version after the crate name: it is found in exactly the
    strings that hold the crate name, a [-], a non-empty run without [/], a
    [/] and the subpath; so the line [foo-1.2.3/bar/baz.rs] gives a rule found
    in [foo-9.9.9/bar/baz.rs] and not in [other-1.2.3/bar/baz.rs]. *)
Theorem load_filter_patterns_rule_lines :
  (forall before line after,
      Str.strip line = "" ->
      load_filter_patterns (before ++ line :: after)
      = load_filter_patterns (before ++ after))
  /\ (forall before line after,
      Str.has_char "/" (Str.strip line) = true ->
      exists regex,
        load_filter_patterns (before ++ line :: after)
        = load_lines before ++ regex :: load_filter_patterns after
        /\ forall s,
            Re.search regex s = true <->
            exists pre version post,
              version <> "" /\ Str.has_char "/" version = false /\
              s = (pre
                   ++ Str.split_head "-"
                        (fst (Str.split_once "/" (Str.strip line)))
                   ++ "-" ++ version ++ "/"
                   ++ snd (Str.split_once "/" (Str.strip line))
                   ++ post)%string)
  /\ (exists regex,
        load_filter_patterns
          [("foo-1.2.3/bar/baz.rs" ++ Examples.newline)%string]
        = regex :: builtin_rules
        /\ Re.search regex "foo-9.9.9/bar/baz.rs" = true
        /\ Re.search regex "other-1.2.3/bar/baz.rs" = false).
Proof.
  split; [|split].
  - intros before line after H. unfold load_filter_patterns.
    rewrite !load_lines_app. simpl. now rewrite (compile_blank line H).
  - intros before line after H. eexists. split.
    + unfold load_filter_patterns. rewrite load_lines_app. simpl.
      rewrite (compile_slash line H), <- app_assoc. reflexivity.
    + intros s. apply search_crate_rule.
  - eexists. split; [reflexivity|]. split; reflexivity.
Qed.

Lemma load_filter_patterns_rule_lines_witness :
  load_filter_patterns ["special.rs"; "   "; "a-1/b"]
  = load_filter_patterns ["special.rs"; "a-1/b"]
  /\ exists regex,
      load_filter_patterns ["special.rs"; "a-1/b"]
      = load_lines ["special.rs"] ++ regex :: load_filter_patterns []
      /\ Re.search regex "x/a-22/b.rs" = true.
Proof.
  split.
  - apply (proj1 load_filter_patterns_rule_lines ["special.rs"] "   " ["a-1/b"]).
    reflexivity.
  - destruct (proj1 (proj2 load_filter_patterns_rule_lines)
                ["special.rs"] "a-1/b" [] eq_refl) as (regex & E & H).
    exists regex. split; [exact E|].
    apply H. exists "x/", "22", ".rs". repeat split. discriminate.
Defined.

End Patterns.

(** ** Dictionaries and the error monad *)

Section Basics.
Import Py.

Lemma bind_ok {A B : Type} (m : result A) (k : A -> result B) (b : B) :
  bind m k = Ok b -> exists a, m = Ok a /\ k a = Ok b.
Proof. destruct m as [a|e]; simpl; [now exists a | discriminate]. Qed.

Lemma dict_get_set_same {A : Type} (k : string) (v : A) d :
  dict_get k (dict_set k v d) = Some v.
Proof.
  induction d as [|[k' v'] d IH]; simpl.
  - now rewrite String.eqb_refl.
  - destruct (String.eqb k' k) eqn:E; simpl; now rewrite E.
Qed.

Lemma dict_get_set_other {A : Type} (k k' : string) (v : A) d :
  k <> k' -> dict_get k' (dict_set k v d) = dict_get k' d.
Proof.
  intros Hne. induction d as [|[k0 v0] d IH]; simpl.
  - destruct (String.eqb_spec k k'); [contradiction | reflexivity].
  - destruct (String.eqb_spec k0 k) as [->|Hk]; simpl.
    + destruct (String.eqb_spec k k'); [contradiction | reflexivity].
    + now rewrite IH.
Qed.

Lemma dict_set_same {A : Type} (k : string) (v : A) d :
  dict_get k d = Some v -> dict_set k v d = d.
Proof.
  induction d as [|[k' v'] d IH]; simpl; [discriminate|].
  destruct (String.eqb_spec k' k) as [->|Hk].
  - now intros [= ->].
  - intros H. now rewrite IH.
Qed.

Lemma dict_set_set {A : Type} (k : string) (v w : A) d :
  dict_set k v (dict_set k w d) = dict_set k v d.
Proof.
  induction d as [|[k' v'] d IH]; simpl.
  - now rewrite String.eqb_refl.
  - destruct (String.eqb k' k) eqn:E; simpl; rewrite E; [reflexivity|].
    now rewrite IH.
Qed.

Lemma dict_has_get {A : Type} (k : string) (d : list (string * A)) :
  dict_has k d = true <-> exists v, dict_get k d = Some v.
Proof.
  unfold dict_has. destruct (dict_get k d) as [v|].
  - split; [now exists v | reflexivity].
  - split; [discriminate | intros (v & H); discriminate].
Qed.

End Basics.

(** Takes an equation [m = Ok b] apart along the binds of [m]. *)
Ltac bind_inv H :=
  let a := fresh "a" in
  let E := fresh "E" in
  apply bind_ok in H as (a & E & H).

(** ** The shape of a call of [apply_filter] *)

Section Call.
Import Py.
Context {Pattern : Type} (search : Pattern -> string -> bool).

(** A call on a dictionary with a [data] key returns when both loops do, and
    then it has assigned the entries of [valid_packages], and the lockfile
    report if there is one, to [data]. *)
Lemma apply_filter_ok (d : dict) (filters : list Pattern) (doc' : value) :
  dict_has "data" d = true ->
  apply_filter search (VDict d) filters = Ok doc' <->
  exists packages todo heap files valid lockfile,
    dict_get "data" d = Some packages /\
    iter packages = Ok todo /\
    first_pass search filters [] [] [] todo = Ok (heap, files, valid) /\
    second_pass heap = Ok lockfile /\
    doc' = VDict (dict_set "data"
                    (VList (map (deref heap) valid ++ option_list lockfile)) d).
Proof.
  intros Hd. unfold apply_filter. cbn [contains bind]. rewrite Hd.
  cbn [negb get]. apply dict_has_get in Hd as (packages & Hp). rewrite Hp.
  cbn [bind]. split.
  - intros H. bind_inv H. destruct (first_pass _ _ _ _ _ a) as [[[heap files] valid]|]
      eqn:E1; [|discriminate].
    cbn [bind] in H. bind_inv H. cbn [setitem] in H. injection H as <-.
    now exists packages, a, heap, files, valid, a0.
  - intros (packages' & todo & heap & files & valid & lockfile
            & [= <-] & -> & E1 & E2 & ->).
    cbn [bind]. rewrite E1. cbn [bind]. rewrite E2. reflexivity.
Qed.

(** C9.  [apply_filter] assigns to the [data] key only: a dictionary without
    that key is returned as it is, and no exception is raised; with the key,
    the call, if it returns, leaves a dictionary in which every other key is
    bound to what it was bound to. *)
Theorem apply_filter_frame (d : dict) (filters : list Pattern) :
  (dict_has "data" d = false ->
   apply_filter search (VDict d) filters = Ok (VDict d))
  /\ (forall doc',
      dict_has "data" d = true ->
      apply_filter search (VDict d) filters = Ok doc' ->
      exists d',
        doc' = VDict d' /\ keys d' = keys d /\
        forall k, k <> "data" -> dict_get k d' = dict_get k d).
Proof.
  split.
  - intros H. unfold apply_filter. cbn [contains bind]. now rewrite H.
  - intros doc' Hd H. apply apply_filter_ok in H; [|exact Hd].
    destruct H as (packages & todo & heap & files & valid & lockfile
                   & Hp & _ & _ & _ & ->).
    eexists. split; [reflexivity|]. split.
    + clear -Hp. induction d as [|[k v] d IH]; [discriminate|].
      simpl in *. destruct (String.eqb k "data"); simpl; [reflexivity|].
      now rewrite IH.
    + intros k Hk. apply dict_get_set_other. congruence.
Qed.

End Call.

(** ** Equality of Python values *)

Section Atoms.
Import Py.

Lemma b2z_inj x y : Z.b2z x = Z.b2z y -> x = y.
Proof. now destruct x, y. Qed.

Ltac atoms :=
  simpl in *; try discriminate;
  repeat match goal with
         | H : Z.eqb _ _ = true |- _ => apply Z.eqb_eq in H
         | H : String.eqb _ _ = true |- _ => apply String.eqb_eq in H
         | H : Bool.eqb _ _ = true |- _ => apply Bool.eqb_prop in H
         end;
  subst;
  repeat match goal with
         | H : Z.b2z _ = Z.b2z _ |- _ => apply b2z_inj in H
         end;
  subst;
  rewrite ?Z.eqb_refl, ?String.eqb_refl, ?Bool.eqb_reflx;
  try reflexivity; try congruence.

Lemma eq_refl_atom a : hashable a = true -> eq a a = true.
Proof. destruct a; atoms. Qed.

Lemma eq_sym_atom a b : hashable b = true -> eq a b = true -> eq b a = true.
Proof. destruct a, b; intros; atoms. Qed.

Lemma eq_trans_atom a b c :
  hashable b = true -> eq a b = true -> eq b c = true -> eq a c = true.
Proof. destruct a, b; intros Hb H1 H2; try (simpl in *; discriminate); destruct c; atoms. Qed.

Lemma eq_hashable a b : hashable b = true -> eq a b = true -> hashable a = true.
Proof. destruct a, b; intros; atoms. Qed.

End Atoms.

Section DictEq.
Import Py.

Lemma dict_get_In {A} k (v : A) d : dict_get k d = Some v -> In (k, v) d.
Proof.
  induction d as [|[k' v'] d IH]; simpl; [discriminate|].
  destruct (String.eqb_spec k' k) as [->|]; [intros [= ->]; now left | auto].
Qed.

Lemma dict_has_keys {A} k (d : list (string * A)) :
  dict_has k d = true -> In k (keys d).
Proof.
  intros H. apply dict_has_get in H as (v & H). apply dict_get_In in H.
  now apply (in_map fst) in H.
Qed.

Lemma eq_dict_inv d d' :
  eq (VDict d) (VDict d') = true ->
  (forall k v, In (k, v) d ->
               exists v', dict_get k d' = Some v' /\ eq v v' = true)
  /\ (forall k, dict_has k d' = true -> dict_has k d = true).
Proof.
  cbn [eq]. intros H. apply andb_true_iff in H as [H1 H2]. split.
  - clear H2. revert H1. induction d as [|[k0 v0] d IH]; intros H1 k v Hin;
      [destruct Hin|].
    apply andb_true_iff in H1 as [Hv H1]. destruct Hin as [[= -> ->]|Hin].
    + destruct (dict_get k d') as [v'|]; [|discriminate]. now exists v'.
    + now apply IH.
  - intros k Hk. rewrite forallb_forall in H2. apply H2.
    now apply dict_has_keys.
Qed.

Lemma eq_list_inv l l' :
  eq (VList l) (VList l') = true -> Forall2 (fun x y => eq x y = true) l l'.
Proof.
  cbn [eq]. revert l'. induction l as [|x l IH]; intros [|y l'] H;
    try discriminate; constructor.
  - now apply andb_true_iff in H as [H _].
  - apply IH. now apply andb_true_iff in H as [_ H].
Qed.

Lemma eq_dict_is_dict d b : eq (VDict d) b = true -> exists d', b = VDict d'.
Proof. destruct b; try discriminate. now eexists. Qed.

Lemma eq_file_val d r' :
  eq (VDict d) r' = true -> eq (file_val (VDict d)) (file_val r') = true.
Proof.
  intros H. destruct (eq_dict_is_dict _ _ H) as (d' & ->).
  apply eq_dict_inv in H as [H1 H2]. unfold file_val, get.
  destruct (dict_get "file" d) as [v|] eqn:E.
  - apply dict_get_In in E. apply H1 in E as (v' & -> & Hv). exact Hv.
  - destruct (dict_get "file" d') as [v'|] eqn:E'; [|reflexivity].
    assert (dict_has "file" d = true) as Hd
        by (apply H2; unfold dict_has; now rewrite E').
    unfold dict_has in Hd. now rewrite E in Hd.
Qed.

End DictEq.

(** ** The loop over the kept reports of one package *)

Section Tables.
Import Py.

Lemma table_mem_add g k x t : table_mem g (table_add k x t) = table_mem g t.
Proof.
  unfold table_mem. induction t as [|[k' s] t IH]; simpl; [reflexivity|].
  destruct (eq k' k); simpl; [reflexivity | now rewrite IH].
Qed.

Lemma table_mem_app g t k s :
  table_mem g (t ++ [(k, s)]) = table_mem g t || eq k g.
Proof. unfold table_mem. rewrite existsb_app. simpl. now rewrite orb_false_r. Qed.

Lemma table_mem_eq a g t :
  table_mem a t = true -> hashable a = true -> eq a g = true ->
  table_mem g t = true.
Proof.
  unfold table_mem. rewrite !existsb_exists. intros (e & He & Hea) Ha Hag.
  exists e. split; [exact He|]. now apply (eq_trans_atom _ a).
Qed.

Lemma new_in_app files done r :
  new_in files (done ++ [r])
  = new_in files done || negb (table_mem (file_val r) files).
Proof. unfold new_in. rewrite existsb_app. simpl. now rewrite orb_false_r. Qed.

Lemma hashable_file_val r : hashable_file r = true -> hashable (file_val r) = true.
Proof. destruct r; simpl; try discriminate. auto. Qed.

Lemma seen_in_done files0 done a :
  table_mem a files0 = false ->
  existsb (fun r => eq (file_val r) a) done = true ->
  forallb hashable_file done = true ->
  new_in files0 done = true.
Proof.
  intros Ha Hex Hh. apply existsb_exists in Hex as (r & Hr & Hra).
  unfold new_in. apply existsb_exists. exists r. split; [exact Hr|].
  apply negb_true_iff. destruct (table_mem (file_val r) files0) eqn:E;
    [|reflexivity].
  rewrite forallb_forall in Hh.
  rewrite (table_mem_eq _ a _ E (hashable_file_val _ (Hh r Hr)) Hra) in Ha.
  discriminate.
Qed.

Lemma assigned_idem F obj : assigned F (assigned F obj) = assigned F obj.
Proof.
  destruct obj; try reflexivity. unfold assigned. f_equal.
  rewrite (dict_set_same "raw_reports" (VList F)).
  - apply dict_set_set.
  - rewrite dict_get_set_other by discriminate. apply dict_get_set_same.
Qed.

Lemma setitem_twice p F p' :
  (q <- setitem p "raw_reports" (VList F);;
   setitem q "count" (VInt (Z.of_nat (length F)))) = Ok p' ->
  (exists d, p = VDict d) /\ p' = assigned F p.
Proof.
  destruct p; try discriminate. simpl. intros [= <-]. eauto.
Qed.

End Tables.

Section ReportLoop.
Import Py.
Context {Pattern : Type} (search : Pattern -> string -> bool).
Variables (visited : list value) (pkg_name : value) (filtered : list value)
          (obj : value) (files0 : table) (valid0 : list nat).

Let inv := report_loop_inv visited pkg_name filtered obj files0 valid0.

Lemma visit_report_inv done st r st' :
  filtered <> [] ->
  inv done st ->
  visit_report visited pkg_name filtered st r = Ok st' ->
  inv (done ++ [r]) st'.
Proof.
  intros filtered_nonempty (Hp & Hd & Hv & Hin & Hm & Hh & Hn) H.
  unfold visit_report in H.
  bind_inv H. rename a into file.
  assert (file_val r = file) as Hfv by (unfold file_val; now rewrite E).
  assert (exists dr, r = VDict dr) as (dr & ->)
      by (destruct r; try discriminate; eauto).
  bind_inv H. unfold table_has in E0.
  destruct (hashable file) eqn:Hfile; [|discriminate]. injection E0 as <-.
  assert (forallb hashable_file (done ++ [VDict dr]) = true) as Hh'.
  { rewrite forallb_app, Hh. simpl. now rewrite Hfv, Hfile. }
  assert (hashable pkg_name = true) as Hname.
  { destruct (table_mem file (all_files_pkg st));
      bind_inv H; unfold hash in *; destruct (hashable pkg_name);
      [reflexivity|discriminate|reflexivity|discriminate]. }
  unfold hash in H. rewrite Hname in H. cbn [bind] in H.
  destruct (table_mem file (all_files_pkg st)) eqn:Hseen.
  - injection H as <-.
    assert (new_in files0 (done ++ [VDict dr]) = new_in files0 done) as Hnew.
    { rewrite new_in_app, Hfv. destruct (table_mem file files0) eqn:E0;
        [apply orb_false_r|].
      rewrite Hm, E0 in Hseen. simpl in Hseen.
      rewrite (seen_in_done _ _ _ E0 Hseen Hh). reflexivity. }
    unfold inv, report_loop_inv. cbn [package all_files_pkg valid_packages].
    rewrite Hnew. repeat split; try assumption.
    + intros file'. rewrite table_mem_add, Hm, existsb_app. simpl.
      rewrite Hfv, orb_false_r.
      destruct (eq file file') eqn:Eff; [|now rewrite orb_false_r].
      rewrite <- Hm, (table_mem_eq _ _ _ Hseen Hfile Eff).
      now rewrite !orb_true_r.
    + intros _. exact Hname.
  - assert (table_mem file files0 = false) as E0.
    { rewrite Hm in Hseen. now apply orb_false_iff in Hseen as [? _]. }
    assert (new_in files0 (done ++ [VDict dr]) = true) as Hnew.
    { rewrite new_in_app, Hfv, E0. apply orb_true_r. }
    assert (Nat.ltb 0 (length filtered) = true) as Hlen.
    { apply Nat.ltb_lt. destruct filtered; [congruence|simpl; lia]. }
    rewrite Hlen in H.
    destruct (setitem (package st) "raw_reports" (VList filtered)) as [q|]
      eqn:E1; [|discriminate].
    cbn [bind] in H.
    destruct (setitem q "count" (VInt (Z.of_nat (length filtered)))) as [p|]
      eqn:E2; [|discriminate].
    cbn [bind] in H.
    destruct (setitem_twice (package st) filtered p) as [(dp & Hdp) Hp'].
    { rewrite E1. exact E2. }
    assert (exists d, obj = VDict d) as Hobj.
    { destruct (new_in files0 done); [now apply Hd|]. rewrite <- Hp. eauto. }
    assert (p = assigned filtered obj) as ->.
    { rewrite Hp', Hp. destruct (new_in files0 done);
        [apply assigned_idem | reflexivity]. }
    unfold inv, report_loop_inv. rewrite Hnew.
    destruct (package_in visited (length visited) (assigned filtered obj)
                         (valid_packages st)) eqn:Hpi;
      injection H as <-; cbn [package all_files_pkg valid_packages].
    all: cbn [package all_files_pkg valid_packages].
    + repeat split; try assumption; auto.
      * destruct Hv as [Hv|[_ Hv]]; [now left | right; now split].
      * intros file'. rewrite table_mem_app, Hm, existsb_app. simpl.
        now rewrite Hfv, orb_false_r, orb_assoc.
    + assert (valid_packages st = valid0) as Hv0.
      { destruct Hv as [Hv|[Hnd Hv]]; [exact Hv|].
        specialize (Hin Hnd). discriminate. }
      repeat split; try assumption; auto.
      * right. split; [reflexivity | now rewrite Hv0].
      * intros _. unfold package_in. rewrite existsb_app. simpl.
        now rewrite Nat.eqb_refl, orb_true_r.
      * intros file'. rewrite table_mem_app, Hm, existsb_app. simpl.
        now rewrite Hfv, orb_false_r, orb_assoc.
Qed.

Lemma visit_reports_inv todo : forall done st st',
  filtered = done ++ todo ->
  inv done st ->
  visit_reports visited pkg_name filtered st todo = Ok st' ->
  inv filtered st'.
Proof.
  induction todo as [|r todo IH]; intros done st st' HF HJ H.
  - simpl in H. injection H as <-. rewrite app_nil_r in HF. now subst.
  - simpl in H. bind_inv H. apply (IH (done ++ [r]) a st').
    + now rewrite <- app_assoc.
    + apply (visit_report_inv done st); [|exact HJ|exact E].
      rewrite HF. now destruct done.
    + exact H.
Qed.

End ReportLoop.

(** ** The first loop *)

Section FirstPass.
Import Py.
Context {Pattern : Type} (search : Pattern -> string -> bool).
Variable filters : list Pattern.

Lemma visit_package_inv visited files valid obj st :
  visit_package search filters visited files valid obj = Ok st ->
  exists pkg_name filtered,
    get obj "pkg" (VStr "") = Ok pkg_name /\
    filtered_reports search filters obj = Ok filtered /\
    report_loop_inv visited pkg_name filtered obj files valid filtered st.
Proof.
  unfold visit_package. intros H. bind_inv H. bind_inv H.
  exists a, a0. split; [exact E|]. split; [exact E0|].
  apply (visit_reports_inv visited a a0 obj files valid a0 []
           (Locals obj files valid) st eq_refl); [|exact H].
  unfold report_loop_inv. simpl.
  repeat split; auto; try discriminate; try congruence.
  intros file. now rewrite orb_false_r.
Qed.

Lemma existsb_map {A B} (f : B -> bool) (g : A -> B) l :
  existsb f (map g l) = existsb (fun x => f (g x)) l.
Proof. induction l; simpl; [reflexivity | now rewrite IHl]. Qed.

Lemma existsb_eq {A} (f g : A -> bool) l :
  (forall x, f x = g x) -> existsb f l = existsb g l.
Proof. intros H. induction l; simpl; [reflexivity | now rewrite H, IHl]. Qed.

Lemma kept_reports_ok obj filtered :
  filtered_reports search filters obj = Ok filtered ->
  kept_reports search filters obj = filtered.
Proof. unfold kept_reports. now intros ->. Qed.

Lemma seen_before_app earlier obj file :
  seen_before search filters (earlier ++ [obj]) file
  = seen_before search filters earlier file
    || existsb (fun r => eq (file_val r) file) (kept_reports search filters obj).
Proof.
  unfold seen_before, kept_files. rewrite flat_map_app, existsb_app. simpl.
  now rewrite app_nil_r, existsb_map.
Qed.

Lemma Forall2_In_l {A B} (R : A -> B -> Prop) l l' x :
  Forall2 R l l' -> In x l -> exists y, In y l' /\ R x y.
Proof.
  induction 1 as [|a b l l' Hab _ IH]; intros Hin; [destruct Hin|].
  destruct Hin as [->|Hin].
  - exists b. split; [now left | exact Hab].
  - destruct (IH Hin) as (y & Hy & Hxy). exists y. split; [now right | exact Hxy].
Qed.

(** An object that has just been assigned reports on a new file is equal to
    no entry of [valid_packages]. *)
Lemma no_collision files d filtered dj reports :
  new_in files filtered = true ->
  forallb hashable_file filtered = true ->
  dict_get "raw_reports" dj = Some (VList reports) ->
  forallb hashable_file reports = true ->
  (forall report, In report reports ->
                  table_mem (file_val report) files = true) ->
  eq (assigned filtered (VDict d)) (VDict dj) = false.
Proof.
  intros Hnew Hh Hdj Hhj Hseen.
  destruct (eq (assigned filtered (VDict d)) (VDict dj)) eqn:E; [|reflexivity].
  exfalso. unfold assigned in E. apply eq_dict_inv in E as [E _].
  destruct (E "raw_reports" (VList filtered)) as (v' & Hv' & Heq).
  { apply dict_get_In. rewrite dict_get_set_other by discriminate.
    apply dict_get_set_same. }
  rewrite Hdj in Hv'. injection Hv' as <-. apply eq_list_inv in Heq.
  unfold new_in in Hnew. apply existsb_exists in Hnew as (r & Hr & Hnew).
  apply negb_true_iff in Hnew.
  destruct (Forall2_In_l _ _ _ _ Heq Hr) as (r' & Hr' & Hrr').
  rewrite forallb_forall in Hh, Hhj.
  pose proof (Hh r Hr) as Hhr. pose proof (Hhj r' Hr') as Hhr'.
  destruct r as [| | | | |dr]; try discriminate.
  apply eq_file_val in Hrr'.
  apply hashable_file_val in Hhr, Hhr'.
  pose proof (Hseen r' Hr') as Hs. unfold table_mem in Hs, Hnew.
  apply existsb_exists in Hs as (e & He & Hee).
  assert (existsb (fun e => eq (fst e) (file_val (VDict dr))) files = true).
  { apply existsb_exists. exists e. split; [exact He|].
    apply (eq_trans_atom _ (file_val r')); [exact Hhr'|exact Hee|].
    now apply eq_sym_atom. }
  congruence.
Qed.

Lemma deref_app_old visited p ref :
  ref < length visited -> deref (visited ++ [p]) ref = deref visited ref.
Proof. intros H. unfold deref. now apply app_nth1. Qed.

Lemma deref_app_new visited (p : value) :
  deref (visited ++ [p]) (length visited) = p.
Proof. unfold deref. rewrite app_nth2, Nat.sub_diag by lia. reflexivity. Qed.

(** What one turn of the first loop does, in closed form. *)
Lemma visit_package_spec orig visited files valid obj st :
  first_pass_inv search filters orig visited files valid ->
  visit_package search filters visited files valid obj = Ok st ->
  package st = (if brings_new search filters orig obj
                then assigned (kept_reports search filters obj) obj else obj)
  /\ valid_packages st
     = valid ++ (if brings_new search filters orig obj
                 then [length orig] else [])
  /\ first_pass_inv search filters (orig ++ [obj]) (visited ++ [package st])
                    (all_files_pkg st) (valid_packages st).
Proof.
  intros (Hlen & Hmem & Hval) H.
  apply visit_package_inv in H as (pkg_name & F & Hname & HF & Hinv).
  destruct Hinv as (Hp & Hd & Hv & Hin & Hm & Hh & Hn).
  rewrite (kept_reports_ok _ _ HF).
  assert (brings_new search filters orig obj = new_in files F) as Hb.
  { unfold brings_new, kept_files, new_in.
    rewrite (kept_reports_ok _ _ HF), existsb_map.
    apply existsb_eq. intros r. now rewrite Hmem. }
  rewrite Hb.
  assert (valid_packages st
          = valid ++ (if new_in files F then [length orig] else [])) as Hv'.
  { destruct (new_in files F) eqn:Hnew.
    - destruct Hv as [Hv|[_ Hv]]; [|now rewrite Hv, Hlen].
      exfalso. specialize (Hin eq_refl). rewrite Hv in Hin.
      unfold package_in in Hin. apply existsb_exists in Hin as (ref & Hr & Hc).
      destruct (Hval ref Hr) as (Hlt & dj & Fj & Hdj & Hget & Hhj & Hsj).
      apply orb_true_iff in Hc as [Hc|Hc].
      + apply Nat.eqb_eq in Hc. lia.
      + destruct (Hd eq_refl) as (d & ->). rewrite Hdj in Hc.
        rewrite (no_collision files d F dj Fj Hnew Hh Hget Hhj Hsj) in Hc.
        discriminate.
    - destruct Hv as [Hv|[Hv _]]; [|discriminate]. now rewrite Hv, app_nil_r. }
  split; [exact Hp|]. split; [exact Hv'|].
  assert (forall file, table_mem file files = true ->
                       table_mem file (all_files_pkg st) = true) as Hmono.
  { intros file Hf. now rewrite Hm, Hf. }
  split; [|split].
  - rewrite !length_app. simpl. lia.
  - intros file. now rewrite Hm, Hmem, seen_before_app, (kept_reports_ok _ _ HF).
  - intros ref Href. rewrite Hv' in Href. apply in_app_or in Href as [Href|Href].
    + destruct (Hval ref Href) as (Hlt & dj & Fj & Hdj & Hget & Hhj & Hsj).
      split; [rewrite length_app; lia|]. exists dj, Fj.
      rewrite deref_app_old by exact Hlt. repeat split; auto.
    + destruct (new_in files F) eqn:Hnew; [|destruct Href].
      destruct Href as [<-|[]]. rewrite <- Hlen.
      split; [rewrite length_app; simpl; lia|].
      destruct (Hd eq_refl) as (d & ->). rewrite deref_app_new, Hp.
      eexists. exists F. split; [reflexivity|]. split.
      { rewrite dict_get_set_other by discriminate. apply dict_get_set_same. }
      split; [exact Hh|].
      intros r Hr. rewrite Hm. apply orb_true_iff. right.
      apply existsb_exists. exists r. split; [exact Hr|].
      apply eq_refl_atom. rewrite forallb_forall in Hh.
      now apply hashable_file_val, Hh.
Qed.

(** The first loop in closed form. *)
Lemma first_pass_spec rest : forall orig visited files valid heap files' valid',
  first_pass_inv search filters orig visited files valid ->
  first_pass search filters visited files valid rest = Ok (heap, files', valid') ->
  heap = visited ++ states_from search filters orig rest
  /\ valid' = valid ++ survivors_from search filters orig rest (length orig)
  /\ first_pass_inv search filters (orig ++ rest) heap files' valid'.
Proof.
  induction rest as [|obj rest IH];
    intros orig visited files valid heap files' valid' Hinv H.
  - simpl in H. injection H as <- <- <-. simpl. now rewrite !app_nil_r.
  - simpl in H. bind_inv H. rename a into st.
    destruct (visit_package_spec orig visited files valid obj st Hinv E)
      as (Hp & Hv & Hinv').
    destruct (IH _ _ _ _ _ _ _ Hinv' H) as (Hheap & Hvalid & Hfin).
    rewrite <- app_assoc in Hheap, Hfin. simpl in Hheap, Hfin.
    split; [|split].
    + simpl. now rewrite Hheap, Hp.
    + simpl. rewrite Hvalid, Hv, <- app_assoc, length_app. simpl.
      now rewrite Nat.add_1_r.
    + exact Hfin.
Qed.

End FirstPass.

(** ** What the first loop leaves *)

Section FirstPassFacts.
Import Py.
Context {Pattern : Type} (search : Pattern -> string -> bool).
Variable filters : list Pattern.

Lemma any_match_false fs report :
  any_match search fs report = Ok false -> ~ matches search fs report.
Proof.
  induction fs as [|regex fs IH]; intros H (regex' & s & Hin & Hs & Hf).
  - destruct Hin.
  - simpl in H. bind_inv H. bind_inv H.
    assert (file_val report = a) as Hfv by (unfold file_val; now rewrite E).
    rewrite Hfv in Hs. subst a. simpl in E0. injection E0 as <-.
    destruct Hin as [->|Hin].
    + rewrite Hf in H. discriminate.
    + destruct (search regex s); [discriminate|].
      apply (IH H). exists regex', s. now rewrite Hfv.
Qed.

Lemma filter_reports_unmatched reports : forall kept,
  filter_reports search filters reports = Ok kept ->
  Forall (fun report => ~ matches search filters report) kept.
Proof.
  induction reports as [|r reports IH]; intros kept H.
  - simpl in H. injection H as <-. constructor.
  - simpl in H. bind_inv H. bind_inv H. injection H as <-.
    destruct a; [now apply IH|].
    constructor; [now apply any_match_false | now apply IH].
Qed.

Lemma visit_package_visited visited files valid obj st :
  visit_package search filters visited files valid obj = Ok st ->
  visited_ok search filters obj.
Proof.
  intros H. apply visit_package_inv in H
    as (pkg_name & F & Hname & HF & _ & _ & _ & _ & _ & Hh & _).
  unfold visited_ok. rewrite (kept_reports_ok _ _ _ _ HF).
  split; [destruct obj; try discriminate; eauto|].
  split; [exact HF|]. split; [exact Hh|].
  unfold filtered_reports in HF. bind_inv HF. bind_inv HF.
  now apply (filter_reports_unmatched a0).
Qed.

Lemma first_pass_visited rest : forall visited files valid result,
  first_pass search filters visited files valid rest = Ok result ->
  Forall (visited_ok search filters) rest.
Proof.
  induction rest as [|obj rest IH]; intros visited files valid result H;
    [constructor|].
  simpl in H. bind_inv H. constructor.
  - now apply (visit_package_visited visited files valid obj a).
  - now apply (IH _ _ _ _ H).
Qed.

Lemma first_pass_inv_start : first_pass_inv search filters [] [] [] [].
Proof.
  unfold first_pass_inv. split; [reflexivity|]. split; [reflexivity|].
  intros ref [].
Qed.

(** The first loop, from its start. *)
Lemma first_pass_closed todo heap files valid :
  first_pass search filters [] [] [] todo = Ok (heap, files, valid) ->
  heap = states search filters todo /\ valid = survivors search filters todo
  /\ Forall (visited_ok search filters) todo.
Proof.
  intros H.
  destruct (first_pass_spec search filters todo [] [] [] [] heap files valid
              first_pass_inv_start H) as (Hh & Hv & _).
  split; [exact Hh|]. split; [exact Hv|]. now apply first_pass_visited in H.
Qed.

Lemma survivors_from_In todo : forall earlier k i,
  In i (survivors_from search filters earlier todo k) <->
  exists j obj,
    i = k + j /\ nth_error todo j = Some obj /\
    brings_new search filters (earlier ++ firstn j todo) obj = true.
Proof.
  induction todo as [|obj todo IH]; intros earlier k i; simpl.
  - split; [intros [] | intros (j & o & _ & H & _); now destruct j].
  - rewrite in_app_iff, IH. split.
    + intros [H|(j & o & -> & Hn & Hb)].
      * destruct (brings_new search filters earlier obj) eqn:Hb;
          [|destruct H].
        destruct H as [<-|[]]. exists 0, obj. simpl.
        now rewrite app_nil_r, Nat.add_0_r.
      * exists (S j), o. simpl. rewrite <- app_assoc in Hb.
        repeat split; [lia | exact Hn | exact Hb].
    + intros (j & o & -> & Hn & Hb). destruct j as [|j]; simpl in *.
      * injection Hn as <-. rewrite app_nil_r in Hb. rewrite Hb.
        left. left. lia.
      * right. exists j, o. rewrite <- app_assoc.
        repeat split; [lia | exact Hn | exact Hb].
Qed.

Lemma states_from_nth todo : forall earlier j obj,
  nth_error todo j = Some obj ->
  nth_error (states_from search filters earlier todo) j
  = Some (if brings_new search filters (earlier ++ firstn j todo) obj
          then assigned (kept_reports search filters obj) obj else obj).
Proof.
  induction todo as [|o todo IH]; intros earlier j obj H;
    [now destruct j|].
  destruct j as [|j]; simpl in *.
  - injection H as <-. now rewrite app_nil_r.
  - rewrite (IH _ _ _ H), <- app_assoc. reflexivity.
Qed.

Lemma states_from_length todo : forall earlier,
  length (states_from search filters earlier todo) = length todo.
Proof. induction todo; intros; simpl; [reflexivity | now rewrite IHtodo]. Qed.

Lemma survivors_In todo i :
  In i (survivors search filters todo) <->
  exists obj, nth_error todo i = Some obj /\
              brings_new search filters (firstn i todo) obj = true.
Proof.
  unfold survivors. rewrite survivors_from_In. split.
  - intros (j & obj & -> & H). now exists obj.
  - intros (obj & H). now exists i, obj.
Qed.

Lemma deref_states todo i obj :
  nth_error todo i = Some obj ->
  deref (states search filters todo) i
  = if brings_new search filters (firstn i todo) obj
    then assigned (kept_reports search filters obj) obj else obj.
Proof.
  intros H. unfold deref, states.
  apply (nth_error_nth _ _ VNone). now rewrite (states_from_nth _ _ _ _ H).
Qed.

End FirstPassFacts.

(** ** The survivor packages *)

Section Output.
Import Py.
Context {Pattern : Type} (search : Pattern -> string -> bool).
Variable filters : list Pattern.

Lemma assigned_retained obj :
  visited_ok search filters obj ->
  retained_ok search filters (assigned (kept_reports search filters obj) obj).
Proof.
  intros ((d & ->) & _ & _ & Hu). unfold assigned.
  eexists. exists (kept_reports search filters (VDict d)).
  split; [reflexivity|]. split.
  - rewrite dict_get_set_other by discriminate. apply dict_get_set_same.
  - split; [apply dict_get_set_same | exact Hu].
Qed.

Lemma survivors_retained todo :
  Forall (visited_ok search filters) todo ->
  Forall (retained_ok search filters)
         (map (deref (states search filters todo)) (survivors search filters todo)).
Proof.
  intros Hv. apply Forall_forall. intros entry Hin.
  apply in_map_iff in Hin as (i & <- & Hi).
  apply survivors_In in Hi as (obj & Hn & Hb).
  rewrite (deref_states _ _ _ _ _ Hn), Hb. apply assigned_retained.
  rewrite Forall_forall in Hv. apply Hv. now apply nth_error_In in Hn.
Qed.

(** C4.  When [apply_filter] returns, [data] is the list of the entries of
    [valid_packages], followed by the lockfile report if the second loop
    found one; every entry of [valid_packages] is a package whose
    [raw_reports] is a list of reports in whose file (the empty string when
    the report has none) no rule is found, and whose [count] is the length
    of that list. *)
Theorem retained_packages_filtered (d : dict) (doc' : value) :
  dict_has "data" d = true ->
  apply_filter search (VDict d) filters = Ok doc' ->
  exists packages todo heap files valid lockfile,
    dict_get "data" d = Some packages /\
    iter packages = Ok todo /\
    first_pass search filters [] [] [] todo = Ok (heap, files, valid) /\
    second_pass heap = Ok lockfile /\
    doc' = VDict (dict_set "data"
                    (VList (map (deref heap) valid ++ option_list lockfile)) d)
    /\ Forall (retained_ok search filters) (map (deref heap) valid).
Proof.
  intros Hd H. apply (apply_filter_ok search d filters doc' Hd) in H
    as (packages & todo & heap & files & valid & lockfile
        & Hp & Hi & H1 & H2 & ->).
  exists packages, todo, heap, files, valid, lockfile.
  repeat split; try assumption.
  apply first_pass_closed in H1 as (-> & -> & Hv).
  now apply survivors_retained.
Qed.

Lemma kept_files_nil obj :
  filtered_reports search filters obj = Ok [] ->
  forall earlier, brings_new search filters earlier obj = false.
Proof.
  intros H earlier. unfold brings_new, kept_files.
  now rewrite (kept_reports_ok _ _ _ _ H).
Qed.

(** C5, amended.  A package all of whose reports are filtered out is not
    assigned to and is not appended to [valid_packages]: no survivor package
    of the output is that package.  (The lockfile report of the second loop
    may still be one of its reports.) *)
Theorem emptied_package_not_retained (d : dict) (doc' : value) :
  dict_has "data" d = true ->
  apply_filter search (VDict d) filters = Ok doc' ->
  exists packages todo heap files valid lockfile,
    dict_get "data" d = Some packages /\
    iter packages = Ok todo /\
    first_pass search filters [] [] [] todo = Ok (heap, files, valid) /\
    second_pass heap = Ok lockfile /\
    doc' = VDict (dict_set "data"
                    (VList (map (deref heap) valid ++ option_list lockfile)) d)
    /\ forall i obj,
        nth_error todo i = Some obj ->
        filtered_reports search filters obj = Ok [] ->
        ~ In i valid /\ nth_error heap i = Some obj.
Proof.
  intros Hd H. apply (apply_filter_ok search d filters doc' Hd) in H
    as (packages & todo & heap & files & valid & lockfile
        & Hp & Hi & H1 & H2 & ->).
  exists packages, todo, heap, files, valid, lockfile.
  repeat split; try assumption;
    apply first_pass_closed in H1 as (-> & -> & Hv).
  - intros Hin. apply survivors_In in Hin as (obj' & Hn & Hb).
    rewrite H in Hn. injection Hn as <-.
    now rewrite (kept_files_nil obj H0) in Hb.
  - unfold states. rewrite (states_from_nth _ _ _ _ _ _ H).
    now rewrite (kept_files_nil obj H0).
Qed.

Lemma survivors_from_ge todo : forall earlier k i,
  In i (survivors_from search filters earlier todo k) -> k <= i.
Proof.
  intros earlier k i H. apply survivors_from_In in H as (j & _ & -> & _). lia.
Qed.

Lemma survivors_from_NoDup todo : forall earlier k,
  NoDup (survivors_from search filters earlier todo k).
Proof.
  induction todo as [|obj todo IH]; intros earlier k; simpl; [constructor|].
  destruct (brings_new search filters earlier obj); simpl; [|apply IH].
  constructor; [|apply IH].
  intros H. apply survivors_from_ge in H. lia.
Qed.

Lemma nth_error_firstn_In {A} (l : list A) a b x :
  nth_error l a = Some x -> a < b -> In x (firstn b l).
Proof.
  revert a b. induction l as [|y l IH]; intros a b H Hab; [now destruct a|].
  destruct b as [|b]; [lia|]. destruct a as [|a]; simpl in *.
  - injection H as ->. now left.
  - right. apply (IH a b H). lia.
Qed.

Lemma seen_before_In earlier obj file :
  In obj earlier -> In file (kept_files search filters obj) ->
  hashable file = true ->
  seen_before search filters earlier file = true.
Proof.
  intros Ho Hf Hh. unfold seen_before. apply existsb_exists. exists file.
  split; [|now apply eq_refl_atom].
  apply in_flat_map. now exists obj.
Qed.

Lemma kept_files_hashable obj file :
  visited_ok search filters obj -> In file (kept_files search filters obj) ->
  hashable file = true.
Proof.
  intros (_ & _ & Hh & _) Hf. unfold kept_files in Hf.
  apply in_map_iff in Hf as (r & <- & Hr). rewrite forallb_forall in Hh.
  now apply hashable_file_val, Hh.
Qed.

Lemma brings_new_iff earlier obj :
  brings_new search filters earlier obj = true <->
  exists file, In file (kept_files search filters obj) /\
               seen_before search filters earlier file = false.
Proof.
  unfold brings_new. rewrite existsb_exists.
  split; intros (file & Hf & Hs); exists file; split; try exact Hf.
  - now apply negb_true_iff.
  - now apply negb_true_iff.
Qed.

(** C6, amended.  Let packages A, at position [a], and B, at a later position
    [b], both keep a report on [file], no package before A keeping one.  Then
    A is a survivor package, assigned its kept reports; [valid_packages] has
    no entry twice; and B is a survivor package exactly when it keeps a report
    on some file on which no package before it keeps one, which [file] is
    not. *)
Theorem shared_file_first_package_survives
    (d : dict) (doc' : value) (todo : list value)
    (a b : nat) (A B : value) (file : value) :
  dict_get "data" d = Some (VList todo) ->
  apply_filter search (VDict d) filters = Ok doc' ->
  nth_error todo a = Some A ->
  nth_error todo b = Some B ->
  a < b ->
  In file (kept_files search filters A) ->
  In file (kept_files search filters B) ->
  seen_before search filters (firstn a todo) file = false ->
  exists heap files valid lockfile,
    first_pass search filters [] [] [] todo = Ok (heap, files, valid) /\
    doc' = VDict (dict_set "data"
                    (VList (map (deref heap) valid ++ option_list lockfile)) d)
    /\ NoDup valid
    /\ In a valid
    /\ deref heap a = assigned (kept_reports search filters A) A
    /\ seen_before search filters (firstn b todo) file = true
    /\ (In b valid <->
        exists file',
          In file' (kept_files search filters B) /\
          seen_before search filters (firstn b todo) file' = false).
Proof.
  intros Hp H Ha Hb Hab HfA HfB Hnew.
  assert (dict_has "data" d = true) as Hd
      by (unfold dict_has; now rewrite Hp).
  apply (apply_filter_ok search d filters doc' Hd) in H
    as (packages & todo' & heap & files & valid & lockfile
        & Hp' & Hi & H1 & H2 & ->).
  rewrite Hp in Hp'. injection Hp' as <-. simpl in Hi. injection Hi as <-.
  exists heap, files, valid, lockfile. split; [exact H1|].
  split; [reflexivity|].
  apply first_pass_closed in H1 as (-> & -> & Hv).
  assert (brings_new search filters (firstn a todo) A = true) as HA.
  { apply brings_new_iff. now exists file. }
  split; [apply survivors_from_NoDup|].
  split; [apply survivors_In; now exists A|].
  split; [now rewrite (deref_states _ _ _ _ _ Ha), HA|].
  split.
  - apply (seen_before_In _ A); [now apply (nth_error_firstn_In _ a)|exact HfA|].
    apply (kept_files_hashable A); [|exact HfA].
    rewrite Forall_forall in Hv. apply Hv. now apply nth_error_In in Ha.
  - rewrite survivors_In. split.
    + intros (B' & HB' & Hbn). rewrite Hb in HB'. injection HB' as <-.
      now apply brings_new_iff.
    + intros Hex. exists B. split; [exact Hb|]. now apply brings_new_iff.
Qed.

End Output.

(** ** Exceptions *)

Section Exceptions.
Import Py.
Context {Pattern : Type} (search : Pattern -> string -> bool).
Variable filters : list Pattern.

Lemma bind_exn {A B} (m : result A) (k : A -> result B) :
  m <> Raise MalformedInputError ->
  (forall a, k a <> Raise MalformedInputError) ->
  bind m k <> Raise MalformedInputError.
Proof.
  intros Hm Hk. destruct m as [a|e]; simpl; [apply Hk|].
  intros [= ->]. now apply Hm.
Qed.

Lemma get_exn o k default : get o k default <> Raise MalformedInputError.
Proof. destruct o; simpl; try discriminate. now destruct (dict_get k d). Qed.

Lemma iter_exn o : iter o <> Raise MalformedInputError.
Proof. destruct o; discriminate. Qed.

Lemma contains_exn needle o : contains needle o <> Raise MalformedInputError.
Proof. destruct o; discriminate. Qed.

Lemma setitem_exn o k v : setitem o k v <> Raise MalformedInputError.
Proof. destruct o; discriminate. Qed.

Lemma hash_exn v : hash v <> Raise MalformedInputError.
Proof. unfold hash. now destruct (hashable v). Qed.

Lemma table_has_exn k t : table_has k t <> Raise MalformedInputError.
Proof. unfold table_has. now destruct (hashable k). Qed.

Lemma regex_search_exn regex x :
  regex_search search regex x <> Raise MalformedInputError.
Proof. destruct x; discriminate. Qed.

Lemma any_match_exn fs report :
  any_match search fs report <> Raise MalformedInputError.
Proof.
  induction fs as [|regex fs IH]; simpl; [discriminate|].
  apply bind_exn; [apply get_exn|]. intros file.
  apply bind_exn; [apply regex_search_exn|]. intros [|];
    [discriminate | exact IH].
Qed.

Lemma filter_reports_exn reports :
  filter_reports search filters reports <> Raise MalformedInputError.
Proof.
  induction reports as [|r reports IH]; simpl; [discriminate|].
  apply bind_exn; [apply any_match_exn|]. intros matched.
  apply bind_exn; [exact IH|]. discriminate.
Qed.

Lemma visit_report_exn visited pkg_name filtered st r :
  visit_report visited pkg_name filtered st r <> Raise MalformedInputError.
Proof.
  unfold visit_report.
  apply bind_exn; [apply get_exn|]. intros file.
  apply bind_exn; [apply table_has_exn|]. intros [|];
    (apply bind_exn; [apply hash_exn|]; intros _); [discriminate|].
  destruct (Nat.ltb 0 (length filtered)); [|discriminate].
  apply bind_exn; [apply setitem_exn|]. intros p.
  apply bind_exn; [apply setitem_exn|]. intros q.
  now destruct (package_in visited (length visited) q (valid_packages st)).
Qed.

Lemma visit_reports_exn visited pkg_name filtered todo : forall st,
  visit_reports visited pkg_name filtered st todo
  <> Raise MalformedInputError.
Proof.
  induction todo as [|r todo IH]; intros st; simpl; [discriminate|].
  apply bind_exn; [apply visit_report_exn | intros st'; apply IH].
Qed.

Lemma visit_package_exn visited files valid obj :
  visit_package search filters visited files valid obj
  <> Raise MalformedInputError.
Proof.
  unfold visit_package, filtered_reports.
  apply bind_exn; [apply get_exn|]. intros pkg_name.
  apply bind_exn; [|intros filtered; apply visit_reports_exn].
  apply bind_exn; [apply get_exn|]. intros raw_reports.
  apply bind_exn; [apply iter_exn | intros reports; apply filter_reports_exn].
Qed.

Lemma first_pass_exn todo : forall visited files valid,
  first_pass search filters visited files valid todo
  <> Raise MalformedInputError.
Proof.
  induction todo as [|obj todo IH]; intros visited files valid; simpl;
    [discriminate|].
  apply bind_exn; [apply visit_package_exn | intros st; apply IH].
Qed.

Lemma find_lockfile_exn reports :
  find_lockfile reports <> Raise MalformedInputError.
Proof.
  induction reports as [|r reports IH]; simpl; [discriminate|].
  apply bind_exn; [apply get_exn|]. intros file.
  apply bind_exn; [apply contains_exn|]. intros [|];
    [discriminate | exact IH].
Qed.

Lemma second_pass_exn heap : second_pass heap <> Raise MalformedInputError.
Proof.
  induction heap as [|obj heap IH]; simpl; [discriminate|].
  apply bind_exn.
  - unfold scan_package.
    apply bind_exn; [apply get_exn|]. intros pkg_name.
    apply bind_exn; [apply get_exn|]. intros raw_reports.
    apply bind_exn; [apply iter_exn | intros reports; apply find_lockfile_exn].
  - intros [r|]; [discriminate | exact IH].
Qed.

(** No statement of [apply_filter] raises [MalformedInputError]. *)
Lemma apply_filter_exn doc :
  apply_filter search doc filters <> Raise MalformedInputError.
Proof.
  unfold apply_filter.
  apply bind_exn; [apply contains_exn|]. intros [|]; [|discriminate].
  cbn [negb].
  apply bind_exn; [apply get_exn|]. intros packages.
  apply bind_exn; [apply iter_exn|]. intros todo.
  apply bind_exn; [apply first_pass_exn|]. intros [[heap files] valid].
  apply bind_exn; [apply second_pass_exn|]. intros lockfile.
  apply setitem_exn.
Qed.

End Exceptions.

(** ** Documents of the expected structure *)

Section Totality.
Import Py.
Context {Pattern : Type} (search : Pattern -> string -> bool).
Variable filters : list Pattern.

Lemma report_ok_file r :
  Shape.report_ok r = true ->
  exists d s, r = VDict d /\ get r "file" (VStr "") = Ok (VStr s).
Proof.
  destruct r as [| | | | |d]; try discriminate. simpl.
  destruct (dict_get "file" d) as [[| | |s| |]|]; try discriminate; eauto.
Qed.

Lemma any_match_total fs r :
  Shape.report_ok r = true -> exists b, any_match search fs r = Ok b.
Proof.
  intros Hr. destruct (report_ok_file r Hr) as (d & s & -> & Hf).
  induction fs as [|regex fs IH]; cbn [any_match]; [eauto|].
  rewrite Hf. cbn [bind regex_search]. destruct (search regex s); eauto.
Qed.

Lemma filter_reports_incl reports : forall kept,
  filter_reports search filters reports = Ok kept -> incl kept reports.
Proof.
  induction reports as [|r reports IH]; intros kept H.
  - simpl in H. injection H as <-. apply incl_refl.
  - simpl in H. bind_inv H. bind_inv H. injection H as <-.
    destruct a.
    + apply incl_tl. now apply IH.
    + apply incl_cons; [now left|]. apply incl_tl. now apply IH.
Qed.

Lemma filter_reports_total reports :
  forallb Shape.report_ok reports = true ->
  exists kept, filter_reports search filters reports = Ok kept.
Proof.
  induction reports as [|r reports IH]; simpl; [eauto|].
  intros H. apply andb_true_iff in H as [Hr H].
  destruct (any_match_total filters r Hr) as (b & ->).
  destruct (IH H) as (kept & ->). simpl. eauto.
Qed.

Lemma forallb_incl {A} (f : A -> bool) l l' :
  incl l l' -> forallb f l' = true -> forallb f l = true.
Proof.
  intros Hi H. rewrite forallb_forall in *. intros x Hx. now apply H, Hi.
Qed.

(** What a package of the expected structure gives the first loop. *)
Lemma package_ok_parts obj :
  Shape.package_ok obj = true ->
  exists d pkg_name filtered,
    obj = VDict d /\
    get obj "pkg" (VStr "") = Ok pkg_name /\
    hashable pkg_name = true /\
    filtered_reports search filters obj = Ok filtered /\
    forallb Shape.report_ok filtered = true.
Proof.
  destruct obj as [| | | | |d]; try discriminate. simpl. intros H.
  apply andb_true_iff in H as [Hn Hr].
  assert (exists pkg_name,
             match dict_get "pkg" d with
             | Some v => Ok v
             | None => Ok (VStr "")
             end = Ok pkg_name /\ hashable pkg_name = true)
    as (pkg_name & Hname & Hh)
      by (destruct (dict_get "pkg" d); eauto).
  unfold filtered_reports. simpl.
  destruct (dict_get "raw_reports" d) as [[| | | |reports|]|];
    try discriminate; simpl.
  - destruct (filter_reports_total reports Hr) as (kept & Hk).
    exists d, pkg_name, kept. rewrite Hk. repeat split; auto.
    apply (forallb_incl _ _ reports); [|exact Hr].
    now apply filter_reports_incl.
  - exists d, pkg_name, []. repeat split; auto.
Qed.

Lemma visit_report_total visited pkg_name filtered st r :
  (exists d, package st = VDict d) ->
  hashable pkg_name = true ->
  Shape.report_ok r = true ->
  exists st', visit_report visited pkg_name filtered st r = Ok st' /\
              exists d', package st' = VDict d'.
Proof.
  intros (d & Hd) Hh Hr. destruct (report_ok_file r Hr) as (dr & s & -> & Hf).
  unfold visit_report. rewrite Hf. cbn [bind table_has hashable].
  unfold hash. rewrite Hh. cbn [bind].
  destruct (table_mem (VStr s) (all_files_pkg st)).
  - eexists. split; [reflexivity|]. simpl. eauto.
  - destruct (Nat.ltb 0 (length filtered)).
    + rewrite Hd. cbn [setitem bind].
      match goal with
      | |- context [package_in ?v ?m ?p ?l] => destruct (package_in v m p l)
      end; eexists; (split; [reflexivity|]); simpl; eauto.
    + eexists. split; [reflexivity|]. simpl. eauto.
Qed.

Lemma visit_reports_total visited pkg_name filtered todo : forall st,
  (exists d, package st = VDict d) ->
  hashable pkg_name = true ->
  forallb Shape.report_ok todo = true ->
  exists st', visit_reports visited pkg_name filtered st todo = Ok st'.
Proof.
  induction todo as [|r todo IH]; intros st Hd Hh H; simpl; [eauto|].
  simpl in H. apply andb_true_iff in H as [Hr H].
  destruct (visit_report_total visited pkg_name filtered st r Hd Hh Hr)
    as (st1 & -> & Hd1).
  simpl. now apply IH.
Qed.

Lemma visit_package_total visited files valid obj :
  Shape.package_ok obj = true ->
  exists st, visit_package search filters visited files valid obj = Ok st.
Proof.
  intros H. destruct (package_ok_parts obj H)
    as (d & pkg_name & F & -> & Hn & Hh & HF & Hr).
  unfold visit_package. rewrite Hn, HF. cbn [bind].
  apply visit_reports_total; simpl; eauto.
Qed.

Lemma first_pass_total todo : forall visited files valid,
  forallb Shape.package_ok todo = true ->
  exists result, first_pass search filters visited files valid todo = Ok result.
Proof.
  induction todo as [|obj todo IH]; intros visited files valid H; simpl;
    [eauto|].
  simpl in H. apply andb_true_iff in H as [Ho H].
  destruct (visit_package_total visited files valid obj Ho) as (st & ->).
  simpl. now apply IH.
Qed.

Lemma assigned_ok reports obj :
  Shape.package_ok obj = true ->
  forallb Shape.report_ok reports = true ->
  Shape.package_ok (assigned reports obj) = true.
Proof.
  destruct obj as [| | | | |d]; try discriminate. simpl. intros H Hr.
  apply andb_true_iff in H as [Hn _].
  rewrite (dict_get_set_other "count" "pkg") by discriminate.
  rewrite (dict_get_set_other "raw_reports" "pkg") by discriminate.
  rewrite (dict_get_set_other "count" "raw_reports") by discriminate.
  now rewrite dict_get_set_same, Hn.
Qed.

Lemma states_from_ok todo : forall earlier,
  forallb Shape.package_ok todo = true ->
  forallb Shape.package_ok (states_from search filters earlier todo) = true.
Proof.
  induction todo as [|obj todo IH]; intros earlier H; simpl; [reflexivity|].
  simpl in H. apply andb_true_iff in H as [Ho H].
  rewrite (IH _ H), andb_true_r.
  destruct (brings_new search filters earlier obj); [|exact Ho].
  apply assigned_ok; [exact Ho|].
  destruct (package_ok_parts obj Ho) as (d & n & F & _ & _ & _ & HF & Hr).
  now rewrite (kept_reports_ok _ _ _ _ HF).
Qed.

Lemma find_lockfile_total reports :
  forallb Shape.report_ok reports = true ->
  exists found, find_lockfile reports = Ok found.
Proof.
  induction reports as [|r reports IH]; cbn [find_lockfile forallb];
    [eauto|].
  intros H. apply andb_true_iff in H as [Hr H].
  destruct (report_ok_file r Hr) as (d & s & -> & Hf).
  rewrite Hf. cbn [bind contains].
  destruct (Str.contains "Cargo.lock" s); [eauto | now apply IH].
Qed.

Lemma scan_package_total obj :
  Shape.package_ok obj = true -> exists found, scan_package obj = Ok found.
Proof.
  destruct obj as [| | | | |d]; try discriminate. simpl. intros H.
  apply andb_true_iff in H as [_ Hr]. unfold scan_package. simpl.
  assert (forall A (m : result A), (_ <- match dict_get "pkg" d with
                       | Some v => Ok v
                       | None => Ok (VStr "")
                       end;; m) = m) as -> by (intros; now destruct (dict_get "pkg" d)).
  destruct (dict_get "raw_reports" d) as [[| | | |reports|]|];
    try discriminate; simpl; [|eauto].
  now apply find_lockfile_total.
Qed.

Lemma second_pass_total heap :
  forallb Shape.package_ok heap = true ->
  exists found, second_pass heap = Ok found.
Proof.
  induction heap as [|obj heap IH]; simpl; [eauto|].
  intros H. apply andb_true_iff in H as [Ho H].
  destruct (scan_package_total obj Ho) as ([r|] & ->); simpl;
    [eauto | now apply IH].
Qed.

(** On a document of the expected structure the call returns. *)
Lemma apply_filter_total doc :
  Shape.document_ok doc = true ->
  exists doc', apply_filter search doc filters = Ok doc'.
Proof.
  destruct doc as [| | | | |d]; try discriminate. simpl. intros H.
  unfold apply_filter. cbn [contains bind]. unfold dict_has.
  destruct (dict_get "data" d) as [[| | | |todo|]|] eqn:Hp;
    try discriminate; [|simpl; eauto].
  cbn [negb get]. rewrite Hp. cbn [bind iter].
  destruct (first_pass_total todo [] [] [] H) as ([[heap files] valid] & H1).
  rewrite H1. cbn [bind].
  apply first_pass_closed in H1 as (-> & _ & _).
  destruct (second_pass_total (states search filters todo)) as (found & ->).
  - now apply states_from_ok.
  - simpl. eauto.
Qed.

End Totality.

(** ** A second call on the output of a first *)

Section SecondCall.
Import Py.
Context {Pattern : Type} (search : Pattern -> string -> bool).
Variable filters : list Pattern.

Lemma entries_from_spec todo : forall visited earlier,
  map (deref (visited ++ states_from search filters earlier todo))
      (survivors_from search filters earlier todo (length visited))
  = entries_from search filters earlier todo.
Proof.
  induction todo as [|obj todo IH]; intros visited earlier; simpl;
    [reflexivity|].
  rewrite map_app.
  replace (visited ++ _ :: states_from search filters (earlier ++ [obj]) todo)
    with ((visited ++ [if brings_new search filters earlier obj
                       then assigned (kept_reports search filters obj) obj
                       else obj])
            ++ states_from search filters (earlier ++ [obj]) todo)
    by now rewrite <- app_assoc.
  specialize (IH (visited ++ [if brings_new search filters earlier obj
                              then assigned (kept_reports search filters obj) obj
                              else obj]) (earlier ++ [obj])).
  rewrite length_app in IH. simpl in IH. rewrite Nat.add_1_r in IH.
  rewrite IH. f_equal.
  destruct (brings_new search filters earlier obj); [|reflexivity].
  simpl. unfold deref. rewrite <- app_assoc. simpl.
  now rewrite app_nth2, Nat.sub_diag by lia.
Qed.

Lemma entries_spec todo :
  map (deref (states search filters todo)) (survivors search filters todo)
  = entries_from search filters [] todo.
Proof. apply (entries_from_spec todo [] []). Qed.

Lemma filter_reports_idem reports : forall kept,
  filter_reports search filters reports = Ok kept ->
  filter_reports search filters kept = Ok kept.
Proof.
  induction reports as [|r reports IH]; intros kept H.
  - simpl in H. now injection H as <-.
  - simpl in H. bind_inv H. bind_inv H. injection H as <-.
    destruct a; [now apply IH|].
    simpl. rewrite E, (IH _ E0). reflexivity.
Qed.

(** Filtering again the kept reports of a package keeps them all. *)
Lemma kept_reports_assigned obj :
  visited_ok search filters obj ->
  filtered_reports search filters (assigned (kept_reports search filters obj) obj)
  = Ok (kept_reports search filters obj).
Proof.
  intros ((d & ->) & HF & _). unfold assigned, filtered_reports at 1.
  cbn [get]. rewrite dict_get_set_other by discriminate.
  rewrite dict_get_set_same. cbn [bind iter].
  unfold filtered_reports in HF. bind_inv HF. bind_inv HF.
  now apply (filter_reports_idem a0).
Qed.

Lemma seen_before_app_mono E E' obj obj' :
  kept_reports search filters obj' = kept_reports search filters obj ->
  (forall file, seen_before search filters E' file = true ->
                seen_before search filters E file = true) ->
  forall file, seen_before search filters (E' ++ [obj']) file = true ->
               seen_before search filters (E ++ [obj]) file = true.
Proof.
  intros Hk H file. rewrite !seen_before_app, Hk, !orb_true_iff.
  intros [Hs|Hs]; [left; now apply H | now right].
Qed.

Lemma seen_before_snoc_mono E obj file :
  seen_before search filters E file = true ->
  seen_before search filters (E ++ [obj]) file = true.
Proof. intros H. now rewrite seen_before_app, H. Qed.

(** The survivor packages survive a first loop of their own, unchanged. *)
Lemma entries_replay todo : forall E E' k,
  Forall (visited_ok search filters) todo ->
  (forall file, seen_before search filters E' file = true ->
                seen_before search filters E file = true) ->
  states_from search filters E' (entries_from search filters E todo)
  = entries_from search filters E todo
  /\ survivors_from search filters E' (entries_from search filters E todo) k
     = seq k (length (entries_from search filters E todo)).
Proof.
  induction todo as [|obj todo IH]; intros E E' k Hv Hsub; simpl;
    [now split|].
  inversion Hv as [|? ? Ho Hv']; subst.
  destruct (brings_new search filters E obj) eqn:Hb; simpl.
  - pose proof (kept_reports_assigned obj Ho) as Hk.
    apply kept_reports_ok in Hk.
    assert (brings_new search filters E'
              (assigned (kept_reports search filters obj) obj) = true) as Hb'.
    { apply brings_new_iff. apply brings_new_iff in Hb as (file & Hf & Hs).
      exists file. unfold kept_files. rewrite Hk. split; [exact Hf|].
      destruct (seen_before search filters E' file) eqn:Hs'; [|reflexivity].
      now rewrite (Hsub file Hs') in Hs. }
    rewrite Hb', Hk, assigned_idem.
    destruct (IH (E ++ [obj])
                 (E' ++ [assigned (kept_reports search filters obj) obj])
                 (S k) Hv') as (Hst & Hsu).
    { now apply seen_before_app_mono. }
    now rewrite Hst, Hsu.
  - apply IH; [exact Hv'|].
    intros file Hs. now apply seen_before_snoc_mono, Hsub.
Qed.

Lemma first_pass_app l1 : forall l2 visited files valid,
  first_pass search filters visited files valid (l1 ++ l2)
  = ('(heap, files', valid') <-
       first_pass search filters visited files valid l1;;
     first_pass search filters heap files' valid' l2).
Proof.
  induction l1 as [|obj l1 IH]; intros l2 visited files valid; simpl;
    [reflexivity|].
  destruct (visit_package search filters visited files valid obj) as [st|];
    simpl; [apply IH | reflexivity].
Qed.

Lemma second_pass_app l1 : forall l2,
  second_pass (l1 ++ l2)
  = (found <- second_pass l1;;
     match found with
     | Some r => Ok (Some r)
     | None => second_pass l2
     end).
Proof.
  induction l1 as [|obj l1 IH]; intros l2; simpl.
  - now destruct (second_pass l2) as [[r|]|].
  - destruct (scan_package obj) as [[r|]|]; simpl; try reflexivity. apply IH.
Qed.

Lemma map_deref_seq l : forall before after,
  map (deref (before ++ l ++ after)) (seq (length before) (length l)) = l.
Proof.
  induction l as [|x l IH]; intros before after; simpl; [reflexivity|].
  f_equal.
  - unfold deref. now rewrite app_nth2, Nat.sub_diag by lia.
  - specialize (IH (before ++ [x]) after).
    rewrite length_app, <- app_assoc in IH. simpl in IH.
    now rewrite Nat.add_1_r in IH.
Qed.

(** A report without a [raw_reports] key, met as a package: both loops pass
    it by. *)
Lemma visit_plain_report visited files valid r :
  dict_has "raw_reports" r = false ->
  visit_package search filters visited files valid (VDict r)
  = Ok (Locals (VDict r) files valid).
Proof.
  unfold dict_has, visit_package, filtered_reports. cbn [get].
  destruct (dict_get "raw_reports" r); [discriminate|]. intros _.
  now destruct (dict_get "pkg" r).
Qed.

Lemma scan_plain_report r :
  dict_has "raw_reports" r = false -> scan_package (VDict r) = Ok None.
Proof.
  unfold dict_has, scan_package. cbn [get].
  destruct (dict_get "raw_reports" r); [discriminate|]. intros _.
  now destruct (dict_get "pkg" r).
Qed.

Lemma find_lockfile_found reports r :
  find_lockfile reports = Ok (Some r) ->
  In r reports /\ exists d, r = VDict d.
Proof.
  induction reports as [|x reports IH]; [discriminate|].
  cbn [find_lockfile]. intros H. bind_inv H. bind_inv H.
  destruct a0.
  - injection H as <-. split; [now left|].
    destruct x; try discriminate. eauto.
  - destruct (IH H) as (Hin & Hd). split; [now right | exact Hd].
Qed.

Lemma second_pass_found heap r :
  second_pass heap = Ok (Some r) ->
  exists obj, In obj heap /\ scan_package obj = Ok (Some r).
Proof.
  induction heap as [|obj heap IH]; [discriminate|].
  cbn [second_pass]. intros H. bind_inv H. destruct a as [r'|].
  - injection H as <-. exists obj. split; [now left | exact E].
  - destruct (IH H) as (obj' & Hin & Hs). exists obj'. split; [now right|exact Hs].
Qed.

Lemma second_pass_none heap :
  second_pass heap = Ok None ->
  forall obj, In obj heap -> scan_package obj = Ok None.
Proof.
  induction heap as [|obj heap IH]; intros H o Hin; [destruct Hin|].
  cbn [second_pass] in H. bind_inv H. destruct a as [r'|]; [discriminate|].
  destruct Hin as [<-|Hin]; [exact E | now apply IH].
Qed.

Lemma second_pass_all_none heap :
  (forall obj, In obj heap -> scan_package obj = Ok None) ->
  second_pass heap = Ok None.
Proof.
  induction heap as [|obj heap IH]; intros H; [reflexivity|].
  cbn [second_pass]. rewrite (H obj) by now left. cbn [bind].
  apply IH. intros o Ho. apply H. now right.
Qed.

(** The lockfile report of a package whose reports have no [raw_reports] key
    is a dictionary without that key. *)
Lemma scan_plain_found obj r :
  Shape.plain_reports obj = true ->
  scan_package obj = Ok (Some r) ->
  exists d, r = VDict d /\ dict_has "raw_reports" d = false.
Proof.
  intros Hp H. unfold scan_package in H. bind_inv H. bind_inv H. bind_inv H.
  apply find_lockfile_found in H as (Hin & d & ->).
  exists d. split; [reflexivity|].
  destruct obj as [| | | | |o]; try discriminate.
  cbn [get] in E0. simpl in Hp.
  destruct (dict_get "raw_reports" o) as [[| | |s|l|l]|];
    injection E0 as <-; try discriminate; simpl in E1; injection E1 as <-.
  - apply in_map_iff in Hin as (? & ? & _). discriminate.
  - rewrite forallb_forall in Hp. specialize (Hp _ Hin). simpl in Hp.
    now apply negb_true_iff in Hp.
  - apply in_map_iff in Hin as (? & ? & _). discriminate.
  - destruct Hin.
Qed.

Lemma assigned_plain obj :
  Shape.package_ok obj = true ->
  Shape.plain_reports obj = true ->
  Shape.plain_reports (assigned (kept_reports search filters obj) obj) = true.
Proof.
  destruct obj as [| | | | |d]; try discriminate. intros Ho Hp.
  unfold assigned, Shape.plain_reports.
  rewrite dict_get_set_other by discriminate. rewrite dict_get_set_same.
  unfold kept_reports, filtered_reports. cbn [get].
  simpl in Hp, Ho. apply andb_true_iff in Ho as [_ Ho].
  destruct (dict_get "raw_reports" d) as [[| | | |reports|]|];
    try discriminate; cbn [bind iter]; [|reflexivity].
  destruct (filter_reports search filters reports) as [kept|] eqn:E;
    [|reflexivity].
  apply (forallb_incl _ _ reports); [|exact Hp].
  now apply (filter_reports_incl search filters).
Qed.

Lemma states_from_plain todo : forall earlier,
  forallb Shape.package_ok todo = true ->
  forallb Shape.plain_reports todo = true ->
  forallb Shape.plain_reports (states_from search filters earlier todo) = true.
Proof.
  induction todo as [|obj todo IH]; intros earlier Ho Hp; simpl;
    [reflexivity|].
  simpl in Ho, Hp. apply andb_true_iff in Ho as [Ho Ho'].
  apply andb_true_iff in Hp as [Hp Hp'].
  rewrite (IH _ Ho' Hp'), andb_true_r.
  destruct (brings_new search filters earlier obj); [|exact Hp].
  now apply assigned_plain.
Qed.

Lemma entries_in_states todo : forall earlier entry,
  In entry (entries_from search filters earlier todo) ->
  In entry (states_from search filters earlier todo).
Proof.
  induction todo as [|obj todo IH]; intros earlier entry H; simpl in *;
    [exact H|].
  apply in_app_or in H as [H|H]; [|right; now apply IH].
  destruct (brings_new search filters earlier obj); [|destruct H].
  destruct H as [<-|[]]. now left.
Qed.

End SecondCall.

Section SecondCallTheorem.
Import Py.
Context {Pattern : Type} (search : Pattern -> string -> bool).
Variable filters : list Pattern.

(** C3, amended.  Take a document of the expected structure, none of whose
    reports has a [raw_reports] key of its own.  A first call returns; a
    second call on its output returns too, and its [data] holds the same
    survivor packages, unchanged and in the same order: it removes no
    package, and no report of a package.  The lockfile report is not kept as
    such: the second call looks for one in the survivor packages, and appends
    none when the first call appended none. *)
Theorem second_call_keeps_packages (d : dict) (todo : list value) :
  dict_get "data" d = Some (VList todo) ->
  forallb Shape.package_ok todo = true ->
  forallb Shape.plain_reports todo = true ->
  exists heap files valid lockfile lockfile',
    first_pass search filters [] [] [] todo = Ok (heap, files, valid) /\
    second_pass heap = Ok lockfile /\
    apply_filter search (VDict d) filters
    = Ok (VDict (dict_set "data"
                   (VList (map (deref heap) valid ++ option_list lockfile)) d))
    /\ apply_filter search
         (VDict (dict_set "data"
                   (VList (map (deref heap) valid ++ option_list lockfile)) d))
         filters
       = Ok (VDict (dict_set "data"
                      (VList (map (deref heap) valid ++ option_list lockfile'))
                      d))
    /\ second_pass (map (deref heap) valid) = Ok lockfile'
    /\ (lockfile = None -> lockfile' = None).
Proof.
  intros Hp Hok Hplain.
  assert (dict_has "data" d = true) as Hd
      by (unfold dict_has; now rewrite Hp).
  destruct (first_pass_total search filters todo [] [] [] Hok)
    as ([[heap files] valid] & H1).
  destruct (first_pass_closed search filters todo heap files valid H1)
    as (Hheap & Hvalid & Hv).
  assert (forallb Shape.package_ok heap = true) as Hheap_ok.
  { rewrite Hheap. now apply states_from_ok. }
  assert (forallb Shape.plain_reports heap = true) as Hheap_plain.
  { rewrite Hheap. now apply states_from_plain. }
  destruct (second_pass_total heap Hheap_ok) as (lockfile & H2).
  remember (map (deref heap) valid) as entries eqn:He.
  assert (entries = entries_from search filters [] todo) as He'.
  { rewrite He, Hheap, Hvalid. apply entries_spec. }
  assert (incl entries heap) as Hincl.
  { intros entry Hin. rewrite Hheap. apply entries_in_states.
    now rewrite <- He'. }
  assert (forallb Shape.package_ok entries = true) as Hentries_ok.
  { now apply (forallb_incl _ _ heap). }
  destruct (first_pass_total search filters entries [] [] [] Hentries_ok)
    as ([[heap2 files2] valid2] & H1').
  destruct (first_pass_closed search filters entries heap2 files2 valid2 H1')
    as (Hheap2 & Hvalid2 & _).
  destruct (entries_replay search filters todo [] [] 0 Hv (fun _ H => H))
    as (Hst & Hsu).
  rewrite <- He' in Hst, Hsu. unfold states in Hheap2. unfold survivors in Hvalid2.
  rewrite Hst in Hheap2. rewrite Hsu in Hvalid2. subst heap2 valid2.
  destruct (second_pass_total entries Hentries_ok) as (lockfile' & H2').
  assert (forall r, lockfile = Some r ->
                    exists dr, r = VDict dr /\ dict_has "raw_reports" dr = false)
    as Hlock.
  { intros r ->. apply second_pass_found in H2 as (obj & Hin & Hs).
    apply (scan_plain_found obj); [|exact Hs].
    rewrite forallb_forall in Hheap_plain. now apply Hheap_plain. }
  exists heap, files, valid, lockfile, lockfile'. rewrite <- He.
  split; [exact H1|]. split; [exact H2|]. split; [|split; [|split]].
  - apply (apply_filter_ok search d filters _ Hd).
    exists (VList todo), todo, heap, files, valid, lockfile.
    rewrite <- He. now repeat split.
  - apply apply_filter_ok; [unfold dict_has; now rewrite dict_get_set_same|].
    exists (VList (entries ++ option_list lockfile)),
      (entries ++ option_list lockfile),
      (entries ++ option_list lockfile), files2,
      (seq 0 (length entries)), lockfile'.
    split; [apply dict_get_set_same|]. split; [reflexivity|].
    split; [|split].
    + rewrite first_pass_app, H1'. cbn [bind].
      destruct lockfile as [r|]; simpl; [|now rewrite app_nil_r].
      destruct (Hlock r eq_refl) as (dr & -> & Hdr).
      now rewrite visit_plain_report.
    + rewrite second_pass_app, H2'. cbn [bind].
      destruct lockfile' as [r'|]; [reflexivity|].
      destruct lockfile as [r|]; simpl; [|reflexivity].
      destruct (Hlock r eq_refl) as (dr & -> & Hdr).
      now rewrite scan_plain_report.
    + rewrite dict_set_set.
      pose proof (map_deref_seq entries [] (option_list lockfile)) as Hm.
      simpl in Hm. now rewrite Hm.
  - exact H2'.
  - intros ->. pose proof (second_pass_none heap H2) as Hnone.
    rewrite second_pass_all_none in H2'; [now injection H2' as <-|].
    intros obj Hin. now apply Hnone, Hincl.
Qed.

End SecondCallTheorem.

(** ** Failures *)

Section Failures.
Import Py.
Context {Pattern : Type} (search : Pattern -> string -> bool).
Variable filters : list Pattern.

Lemma any_match_no_file fs r :
  dict_get "file" r = None ->
  any_match search fs (VDict r)
  = Ok (existsb (fun regex => search regex "") fs).
Proof.
  intros H. induction fs as [|regex fs IH]; cbn [any_match existsb];
    [reflexivity|].
  cbn [get]. rewrite H. cbn [bind regex_search].
  destruct (search regex ""); [reflexivity | exact IH].
Qed.

(** C8, amended.  [apply_filter] never raises [MalformedInputError].  On a
    document of the expected structure it returns, also when reports have no
    [file] and packages no [pkg]: such a report is one of the expected
    structure, the rules are searched in the empty string for it, and such a
    package has the empty string for name. *)
Theorem apply_filter_failures (doc : value) :
  apply_filter search doc filters <> Raise MalformedInputError
  /\ (Shape.document_ok doc = true ->
      exists doc', apply_filter search doc filters = Ok doc')
  /\ (forall r,
        dict_get "file" r = None ->
        Shape.report_ok (VDict r) = true /\
        any_match search filters (VDict r)
        = Ok (existsb (fun regex => search regex "") filters))
  /\ (forall p,
        dict_get "pkg" p = None ->
        get (VDict p) "pkg" (VStr "") = Ok (VStr "")).
Proof.
  split; [apply apply_filter_exn|]. split; [apply apply_filter_total|].
  split.
  - intros r H. split; [simpl; now rewrite H | now apply any_match_no_file].
  - intros p H. simpl. now rewrite H.
Qed.

End Failures.

(** ** The examples *)

Section Runs.
Import Py Examples.

(** C1, as stated, fails: the output for the example document is not the
    lockfile report alone. *)
Lemma builtin_example_not_lockfile_alone :
  apply_filter Re.search lockfile_and_source builtins
  <> Ok (document [report "x/Cargo.lock"]).
Proof. vm_compute. discriminate. Qed.

(** C1, amended.  For the example document and the five hardcoded rules, the
    first entry of the output is the package [p1] with the report on
    [src/main.rs] as its only report and a [count] of 1. *)
Theorem builtin_example_keeps_package :
  exists rest,
    apply_filter Re.search lockfile_and_source builtins
    = Ok (document (filtered_pkg "p1" [report "src/main.rs"] :: rest)).
Proof. exists []. vm_compute. reflexivity. Qed.

(** C2 at the failing input.  The reports of [p1] as they were in the input
    hold a lockfile report, which the second loop finds when it walks them;
    but [apply_filter] runs the second loop on the object the first loop has
    assigned the kept reports to, and appends no report. *)
Theorem lockfile_pass_reads_assigned_reports :
  second_pass [pkg "p1" [report "x/Cargo.lock"; report "src/main.rs"]]
  = Ok (Some (report "x/Cargo.lock"))
  /\ apply_filter Re.search lockfile_and_source builtins
     = Ok (document [filtered_pkg "p1" [report "src/main.rs"]]).
Proof. split; vm_compute; reflexivity. Qed.

(** C3, as stated, fails: the second call drops the lockfile report the
    first call has put in [data]. *)
Lemma second_call_drops_lockfile_report :
  apply_filter Re.search lockfile_only builtins
  = Ok (document [report "x/Cargo.lock"])
  /\ apply_filter Re.search (document [report "x/Cargo.lock"]) builtins
     = Ok (document []).
Proof. split; vm_compute; reflexivity. Qed.

(** C5, as stated, fails: every report of [p1] is filtered out, and the
    output has an entry that is a report of [p1]. *)
Lemma emptied_package_gives_lockfile_report :
  filtered_reports Re.search builtins (pkg "p1" [report "x/Cargo.lock"])
  = Ok []
  /\ apply_filter Re.search lockfile_only builtins
     = Ok (document [report "x/Cargo.lock"]).
Proof. split; vm_compute; reflexivity. Qed.

(** C6, as stated, fails: both packages are survivors, and both entries hold
    a report on [shared/dep.rs]. *)
Lemma shared_file_in_two_entries :
  apply_filter Re.search shared_dep builtins
  = Ok (document
          [filtered_pkg "a" [report "shared/dep.rs"];
           filtered_pkg "b" [report "shared/dep.rs"; report "b/own.rs"]]).
Proof. vm_compute. reflexivity. Qed.

(** C8, as stated, fails: a document that is a list is returned as it is, and
    a [data] that is a number raises [TypeError]. *)
Lemma malformed_document_not_rejected :
  Shape.malformed (VList []) = true
  /\ apply_filter Re.search (VList []) builtins = Ok (VList [])
  /\ Shape.malformed (VDict [("data", VInt 5)]) = true
  /\ apply_filter Re.search (VDict [("data", VInt 5)]) builtins
     = Raise TypeError.
Proof. repeat split; vm_compute; reflexivity. Qed.

(** C10.  None of the hardcoded rules is found in [Cargo.lock]; the package
    keeps its report, and the second loop appends the same report. *)
Theorem bare_cargo_lock_reported_twice :
  forallb (fun regex => negb (Re.search regex "Cargo.lock")) builtins = true
  /\ apply_filter Re.search bare_lockfile builtins
     = Ok (document [filtered_pkg "p1" [report "Cargo.lock"];
                     report "Cargo.lock"]).
Proof. split; vm_compute; reflexivity. Qed.

End Runs.

(** ** The general properties at the examples *)

Section Instances.
Import Py Examples.

Lemma second_call_keeps_packages_witness :
  apply_filter Re.search
    (document [filtered_pkg "p2" [report "src/main.rs"];
               report "x/Cargo.lock"]) builtins
  = Ok (document [filtered_pkg "p2" [report "src/main.rs"]]).
Proof.
  destruct (second_call_keeps_packages Re.search builtins
              [("data", VList lockfile_then_source)] lockfile_then_source
              eq_refl eq_refl eq_refl)
    as (heap & files & valid & lockfile & lockfile'
        & H1 & H2 & _ & H4 & H5 & _).
  vm_compute in H1. injection H1 as <- <- <-.
  vm_compute in H2. injection H2 as <-.
  vm_compute in H5. injection H5 as <-.
  exact H4.
Defined.

Lemma retained_packages_filtered_witness :
  Forall (retained_ok Re.search builtins)
         [filtered_pkg "p1" [report "src/main.rs"]].
Proof.
  destruct (retained_packages_filtered Re.search builtins
              [("data", VList [pkg "p1" [report "x/Cargo.lock";
                                         report "src/main.rs"]])]
              (document [filtered_pkg "p1" [report "src/main.rs"]])
              eq_refl eq_refl)
    as (packages & todo & heap & files & valid & lockfile
        & Hp & Hi & H1 & _ & _ & H).
  vm_compute in Hp. injection Hp as <-.
  vm_compute in Hi. injection Hi as <-.
  vm_compute in H1. injection H1 as <- <- <-.
  exact H.
Defined.

Lemma emptied_package_not_retained_witness :
  exists heap files valid,
    first_pass Re.search builtins [] [] [] [pkg "p1" [report "x/Cargo.lock"]]
    = Ok (heap, files, valid)
    /\ ~ In 0 valid
    /\ nth_error heap 0 = Some (pkg "p1" [report "x/Cargo.lock"]).
Proof.
  destruct (emptied_package_not_retained Re.search builtins
              [("data", VList [pkg "p1" [report "x/Cargo.lock"]])]
              (document [report "x/Cargo.lock"]) eq_refl eq_refl)
    as (packages & todo & heap & files & valid & lockfile
        & Hp & Hi & H1 & _ & _ & H).
  vm_compute in Hp. injection Hp as <-.
  vm_compute in Hi. injection Hi as <-.
  exists heap, files, valid. split; [exact H1|].
  apply (H 0 (pkg "p1" [report "x/Cargo.lock"])); reflexivity.
Defined.

Lemma shared_file_first_package_survives_witness :
  exists heap files valid,
    first_pass Re.search builtins [] [] [] shared_only
    = Ok (heap, files, valid)
    /\ NoDup valid /\ In 0 valid /\ ~ In 1 valid.
Proof.
  destruct (shared_file_first_package_survives Re.search builtins
              [("data", VList shared_only)]
              (document [filtered_pkg "a" [report "shared/dep.rs"]])
              shared_only 0 1
              (pkg "a" [report "shared/dep.rs"])
              (pkg "b" [report "shared/dep.rs"])
              (VStr "shared/dep.rs")
              eq_refl eq_refl eq_refl eq_refl (Nat.lt_0_succ 0)
              (or_introl eq_refl) (or_introl eq_refl) eq_refl)
    as (heap & files & valid & lockfile & H1 & _ & Hnd & Ha & _ & _ & Hb).
  exists heap, files, valid. repeat split; try assumption.
  intros H. apply Hb in H as (file' & [<-|[]] & Hs). discriminate.
Defined.

Lemma apply_filter_failures_witness :
  exists doc', apply_filter Re.search nameless builtins = Ok doc'.
Proof.
  apply (proj1 (proj2 (apply_filter_failures Re.search builtins nameless))).
  reflexivity.
Defined.

Lemma apply_filter_frame_witness :
  apply_filter Re.search (VDict [("tool", VStr "lockbud")]) builtins
  = Ok (VDict [("tool", VStr "lockbud")])
  /\ exists d',
      VDict [("tool", VStr "lockbud"); ("data", VList [])] = VDict d' /\
      keys d' = ["tool"; "data"] /\
      forall k, k <> "data" ->
                dict_get k d'
                = dict_get k [("tool", VStr "lockbud");
                              ("data", VList [report "x/Cargo.lock" ])].
Proof.
  split.
  - apply (proj1 (apply_filter_frame Re.search
                    [("tool", VStr "lockbud")] builtins)).
    reflexivity.
  - apply (proj2 (apply_filter_frame Re.search
                    [("tool", VStr "lockbud");
                     ("data", VList [report "x/Cargo.lock"])] builtins)
             (VDict [("tool", VStr "lockbud"); ("data", VList [])]));
      reflexivity.
Defined.

End Instances.

(** * Further properties *)

(** ** More on the rules of a rule file *)

Section RuleLines.

Lemma append_nil_r (s : string) : (s ++ "")%string = s.
Proof. induction s as [|c s IH]; simpl; [reflexivity | now rewrite IH]. Qed.

Lemma length_append (a b : string) :
  String.length (a ++ b) = String.length a + String.length b.
Proof. induction a as [|c a IH]; simpl; [reflexivity | now rewrite IH]. Qed.

Lemma prefix_iff (a s : string) :
  String.prefix a s = true <-> exists post, s = (a ++ post)%string.
Proof.
  revert s. induction a as [|c a IH]; intros s.
  - split; [intros _; now exists s | now destruct s].
  - destruct s as [|x s]; simpl.
    + split; [discriminate | intros (post & H); discriminate].
    + destruct (Ascii.ascii_dec c x) as [->|Hne].
      * rewrite IH. split; intros (post & H); exists post.
        -- now rewrite H.
        -- now injection H.
      * split; [discriminate|]. intros (post & H). injection H as H _.
        congruence.
Qed.

Lemma contains_iff (a s : string) :
  Str.contains a s = true <->
  exists pre post, s = (pre ++ a ++ post)%string.
Proof.
  induction s as [|x s IH]; cbn [Str.contains].
  - rewrite orb_false_r, prefix_iff. split.
    + intros (post & H). now exists "", post.
    + intros (pre & post & H). destruct pre; [|discriminate].
      now exists post.
  - rewrite orb_true_iff, IH, prefix_iff. split.
    + intros [(post & H) | (pre & post & ->)].
      * now exists "", post.
      * now exists (String x pre), post.
    + intros (pre & post & H). destruct pre as [|y pre].
      * left. now exists post.
      * right. simpl in H. injection H as _ ->. now exists pre, post.
Qed.

Lemma search_escape (lit s : string) :
  Re.search (Re.escape lit) s = Str.contains lit s.
Proof.
  apply eq_true_iff_eq. rewrite search_iff, contains_iff.
  split.
  - intros (pre & rest & -> & H).
    rewrite <- (app_nil_r (Re.escape lit)) in H.
    apply match_here_escape in H as (post & -> & _). now exists pre, post.
  - intros (pre & post & ->). exists pre, (lit ++ post)%string.
    split; [reflexivity|].
    rewrite <- (app_nil_r (Re.escape lit)).
    apply match_here_escape. now exists post.
Qed.

Lemma compile_no_slash (line : string) :
  Str.strip line <> "" ->
  Str.has_char "/" (Str.strip line) = false ->
  compile_line line = Some (Re.escape (Str.strip line)).
Proof.
  intros Hne Hs. unfold compile_line. rewrite Hs.
  destruct (String.eqb_spec (Str.strip line) ""); [contradiction|reflexivity].
Qed.

(** X1.  A line of the rule file without [/], and not blank, gives a rule
    that is found in exactly the strings that contain the stripped line. *)
Theorem plain_line_is_substring_rule (before after : list string)
    (line : string) :
  Str.strip line <> "" ->
  Str.has_char "/" (Str.strip line) = false ->
  exists regex,
    load_filter_patterns (before ++ line :: after)
    = load_lines before ++ regex :: load_filter_patterns after
    /\ (forall s, Re.search regex s = Str.contains (Str.strip line) s)
    /\ (forall s, Re.search regex s = true <->
                  exists pre post,
                    s = (pre ++ Str.strip line ++ post)%string).
Proof.
  intros Hne Hs. exists (Re.escape (Str.strip line)). split; [|split].
  - unfold load_filter_patterns. rewrite load_lines_app. simpl.
    now rewrite (compile_no_slash line Hne Hs), <- app_assoc.
  - intros s. apply search_escape.
  - intros s. rewrite search_escape. apply contains_iff.
Qed.

Lemma plain_line_is_substring_rule_witness :
  exists regex,
    load_filter_patterns [("  special.rs" ++ Examples.newline)%string]
    = regex :: builtin_rules
    /\ Re.search regex "src/special.rs.bak" = true.
Proof.
  destruct (plain_line_is_substring_rule [] []
              ("  special.rs" ++ Examples.newline)%string)
    as (regex & E & H & _).
  - discriminate.
  - reflexivity.
  - exists regex. split; [exact E|]. now rewrite H.
Defined.

Lemma has_char_app c a b :
  Str.has_char c (a ++ b) = Str.has_char c a || Str.has_char c b.
Proof.
  induction a as [|x a IH]; simpl; [reflexivity|].
  now rewrite IH, orb_assoc.
Qed.

Lemma split_once_has c s :
  Str.has_char c s = true ->
  s = (fst (Str.split_once c s) ++ String c (snd (Str.split_once c s)))%string
  /\ Str.has_char c (fst (Str.split_once c s)) = false.
Proof.
  induction s as [|x s IH]; simpl; [discriminate|].
  destruct (Ascii.eqb_spec x c) as [->|Hne]; simpl; [now split|].
  intros H. destruct (IH H) as (E & Hf).
  destruct (Str.split_once c s) as [a b]. simpl in *.
  split; [now rewrite <- E|].
  apply orb_false_iff. split; [|exact Hf]. now apply Ascii.eqb_neq.
Qed.

Lemma split_once_none c s :
  Str.has_char c s = false -> Str.split_once c s = (s, "").
Proof.
  induction s as [|x s IH]; simpl; [reflexivity|].
  intros H. apply orb_false_iff in H as [Hx H].
  rewrite Hx, (IH H). reflexivity.
Qed.

(** X2.  The rule of a line with a [/] is found in the line's own path only
    when the part before the first [/] holds a [-] followed by something: the
    rule of [foo-1.2.3/bar.rs] is found in [foo-1.2.3/bar.rs], the rule of
    [foo/bar.rs] is not found in [foo/bar.rs]. *)
Theorem slash_line_matches_own_path (line : string) :
  Str.has_char "/" (Str.strip line) = true ->
  exists regex,
    compile_line line = Some regex /\
    (Re.search regex (Str.strip line) = true <->
     exists version,
       version <> "" /\
       fst (Str.split_once "/" (Str.strip line))
       = (Str.split_head "-" (fst (Str.split_once "/" (Str.strip line)))
          ++ "-" ++ version)%string).
Proof.
  intros Hs. eexists. split; [now apply compile_slash|].
  destruct (split_once_has "/" (Str.strip line) Hs) as (Hpath & Hcv).
  set (cv := fst (Str.split_once "/" (Str.strip line))) in *.
  set (sub := snd (Str.split_once "/" (Str.strip line))) in *.
  rewrite search_crate_rule. split.
  - intros (pre & ver & post & Hne & _ & E).
    rewrite Hpath in E. apply (f_equal String.length) in E.
    rewrite !length_append in E. simpl in E. rewrite ?length_append in E.
    assert (1 <= String.length ver) by (destruct ver; [congruence|simpl; lia]).
    unfold Str.split_head in *.
    destruct (Str.has_char "-" cv) eqn:Hd.
    + destruct (split_once_has "-" cv Hd) as (Hc & _).
      exists (snd (Str.split_once "-" cv)). split; [|exact Hc].
      intros Hr. rewrite Hc, Hr in E at 1. rewrite length_append in E.
      simpl in E. lia.
    + rewrite (split_once_none _ _ Hd) in E. simpl in E. lia.
  - intros (version & Hne & E). exists "", version, "".
    split; [exact Hne|]. split.
    + rewrite E in Hcv. rewrite has_char_app in Hcv.
      apply orb_false_iff in Hcv as [_ Hcv]. simpl in Hcv. exact Hcv.
    + rewrite Hpath at 1. rewrite E at 1. simpl.
      rewrite append_nil_r, append_assoc. reflexivity.
Qed.

Lemma slash_line_matches_own_path_witness :
  (exists regex,
      compile_line "foo-1.2.3/bar.rs" = Some regex /\
      Re.search regex "foo-1.2.3/bar.rs" = true)
  /\ (exists regex,
        compile_line "foo/bar.rs" = Some regex /\
        Re.search regex "foo/bar.rs" = false).
Proof.
  split.
  - destruct (slash_line_matches_own_path "foo-1.2.3/bar.rs" eq_refl)
      as (regex & E & H).
    exists regex. split; [exact E|]. apply H. exists "1.2.3".
    split; [discriminate | reflexivity].
  - destruct (slash_line_matches_own_path "foo/bar.rs" eq_refl)
      as (regex & E & H).
    exists regex. split; [exact E|].
    apply not_true_is_false. intros Hs.
    destruct (proj1 H Hs) as (version & Hne & Hv).
    vm_compute in Hv. destruct version; [congruence | discriminate].
Defined.

Lemma lstrip_head s :
  Str.lstrip s = ""
  \/ exists c t, Str.lstrip s = String c t /\ Str.isspace c = false.
Proof.
  induction s as [|c s IH]; simpl; [now left|].
  destruct (Str.isspace c) eqn:E; [exact IH|]. right. now exists c, s.
Qed.

Lemma rstrip_head c t :
  Str.isspace c = false -> exists t', Str.rstrip (String c t) = String c t'.
Proof.
  intros H. cbn [Str.rstrip]. destruct (Str.rstrip t); rewrite ?H; eauto.
Qed.

Lemma rstrip_idem s : Str.rstrip (Str.rstrip s) = Str.rstrip s.
Proof.
  induction s as [|c s IH]; [reflexivity|]. cbn [Str.rstrip].
  destruct (Str.rstrip s) as [|d r] eqn:E.
  - destruct (Str.isspace c) eqn:Hc; [reflexivity|].
    cbn [Str.rstrip]. now rewrite Hc.
  - cbn [Str.rstrip]. cbn [Str.rstrip] in IH. now rewrite IH.
Qed.

Lemma strip_idem s : Str.strip (Str.strip s) = Str.strip s.
Proof.
  unfold Str.strip. destruct (lstrip_head s) as [->|(c & t & -> & Hc)];
    [reflexivity|].
  destruct (rstrip_head c t Hc) as (t' & E). rewrite E.
  cbn [Str.lstrip]. rewrite Hc, <- E. apply rstrip_idem.
Qed.

(** X3.  The rules do not depend on the white space around the lines of the
    rule file: stripping every line first gives the same rules. *)
Theorem rules_ignore_surrounding_space (lines : list string) :
  load_filter_patterns (map Str.strip lines) = load_filter_patterns lines.
Proof.
  unfold load_filter_patterns. f_equal.
  induction lines as [|line lines IH]; [reflexivity|].
  cbn [map load_lines]. rewrite IH.
  assert (compile_line (Str.strip line) = compile_line line) as ->;
    [|reflexivity].
  unfold compile_line. now rewrite strip_idem.
Qed.

Lemma at_end_iff s :
  Re.at_end s = true <-> s = "" \/ s = Examples.newline.
Proof.
  destruct s as [|c [|d s]]; simpl.
  - split; [now left | reflexivity].
  - rewrite Ascii.eqb_eq. split.
    + intros ->. now right.
    + intros [H|H]; [discriminate | now injection H].
  - split; [discriminate | intros [H|H]; discriminate].
Qed.

Lemma search_lockfile_rule (s : string) :
  Re.search (Re.escape "/Cargo.lock" ++ [Re.Eos]) s = true <->
  exists pre,
    s = (pre ++ "/Cargo.lock")%string \/
    s = (pre ++ "/Cargo.lock" ++ Examples.newline)%string.
Proof.
  rewrite search_iff. split.
  - intros (pre & rest & -> & H).
    apply match_here_escape in H as (r & -> & H).
    cbn [Re.match_here] in H. rewrite andb_true_r in H.
    apply at_end_iff in H as [E|E]; rewrite E; exists pre; [left|right];
      reflexivity.
  - intros (pre & [E|E]); rewrite E;
      [exists pre, "/Cargo.lock"
      |exists pre, ("/Cargo.lock" ++ Examples.newline)%string];
      (split; [reflexivity|]); reflexivity.
Qed.

Lemma builtin_rules_loaded (lines : list string) (regex : Re.Pattern) :
  In regex builtin_rules -> In regex (load_filter_patterns lines).
Proof. intros H. unfold load_filter_patterns. apply in_or_app. now right. Qed.

(** X4.  Whatever the rule file, the rules hold the lockfile rule; it is
    found in exactly the strings that end with [/Cargo.lock], or with that
    and a newline; so every string it is found in contains [Cargo.lock], the
    test of the second loop. *)
Theorem lockfile_rule_always_loaded (lines : list string) :
  In (Re.escape "/Cargo.lock" ++ [Re.Eos]) (load_filter_patterns lines)
  /\ (forall s,
        Re.search (Re.escape "/Cargo.lock" ++ [Re.Eos]) s = true <->
        exists pre,
          s = (pre ++ "/Cargo.lock")%string \/
          s = (pre ++ "/Cargo.lock" ++ Examples.newline)%string)
  /\ (forall s,
        Re.search (Re.escape "/Cargo.lock" ++ [Re.Eos]) s = true ->
        Str.contains "Cargo.lock" s = true).
Proof.
  split; [|split; [exact search_lockfile_rule|]].
  - apply builtin_rules_loaded. right. right. left. reflexivity.
  - intros s H. apply search_lockfile_rule in H as (pre & [E|E]); rewrite E;
      apply contains_iff.
    + exists (pre ++ "/")%string, "". now rewrite append_assoc.
    + exists (pre ++ "/")%string, Examples.newline. now rewrite append_assoc.
Qed.




End RuleLines.

(** ** More on the survivor packages *)

Section Survivors.
Import Py.
Context {Pattern : Type} (search : Pattern -> string -> bool).
Variable filters : list Pattern.

Lemma In_firstn {A} (l : list A) i x :
  In x (firstn i l) <-> exists j, j < i /\ nth_error l j = Some x.
Proof.
  revert i. induction l as [|y l IH]; intros i.
  - rewrite firstn_nil. split; [intros [] | intros (j & _ & H); now destruct j].
  - destruct i as [|i]; simpl.
    + split; [intros [] | intros (j & H & _); lia].
    + rewrite IH. split.
      * intros [->|(j & Hj & H)]; [exists 0; split; [lia|reflexivity]|].
        exists (S j). split; [lia | exact H].
      * intros ([|j] & Hj & H); simpl in H.
        -- left. now injection H.
        -- right. exists j. split; [lia | exact H].
Qed.

Lemma seen_before_iff earlier file :
  seen_before search filters earlier file = true <->
  exists obj report,
    In obj earlier /\ In report (kept_reports search filters obj) /\
    eq (file_val report) file = true.
Proof.
  unfold seen_before, kept_files. rewrite existsb_exists. split.
  - intros (g & Hg & He). apply in_flat_map in Hg as (obj & Ho & Hg).
    apply in_map_iff in Hg as (r & <- & Hr). now exists obj, r.
  - intros (obj & r & Ho & Hr & He). exists (file_val r). split; [|exact He].
    apply in_flat_map. exists obj. split; [exact Ho|]. now apply in_map.
Qed.

Lemma brings_new_reports earlier obj :
  brings_new search filters earlier obj = true <->
  exists report,
    In report (kept_reports search filters obj) /\
    seen_before search filters earlier (file_val report) = false.
Proof.
  rewrite brings_new_iff. unfold kept_files. split.
  - intros (g & Hg & H). apply in_map_iff in Hg as (r & <- & Hr).
    now exists r.
  - intros (r & Hr & H). exists (file_val r). split; [now apply in_map|exact H].
Qed.

Lemma seen_before_false earlier file :
  seen_before search filters earlier file = false <->
  forall obj report,
    In obj earlier -> In report (kept_reports search filters obj) ->
    eq (file_val report) file = false.
Proof.
  split.
  - intros H obj r Ho Hr.
    destruct (eq (file_val r) file) eqn:E; [|reflexivity].
    assert (seen_before search filters earlier file = true)
      by (apply seen_before_iff; now exists obj, r).
    congruence.
  - intros H. destruct (seen_before search filters earlier file) eqn:E;
      [|reflexivity].
    apply seen_before_iff in E as (obj & r & Ho & Hr & He).
    now rewrite (H obj r Ho Hr) in He.
Qed.

(** X5.  When the first loop ends, [valid_packages] holds the package at
    position [i] exactly when that package keeps a report on a file on which
    no package before it keeps a report. *)
Theorem survivors_bring_a_new_file
    (todo heap : list value) (files : table) (valid : list nat) :
  first_pass search filters [] [] [] todo = Ok (heap, files, valid) ->
  forall i,
    In i valid <->
    exists obj report,
      nth_error todo i = Some obj /\
      In report (kept_reports search filters obj) /\
      forall j obj' report',
        j < i -> nth_error todo j = Some obj' ->
        In report' (kept_reports search filters obj') ->
        eq (file_val report') (file_val report) = false.
Proof.
  intros H i. apply first_pass_closed in H as (_ & -> & _).
  rewrite survivors_In. split.
  - intros (obj & Hn & Hb). apply brings_new_reports in Hb as (r & Hr & Hs).
    exists obj, r. split; [exact Hn|]. split; [exact Hr|].
    intros j obj' r' Hj Hn' Hr'.
    apply (proj1 (seen_before_false _ _) Hs obj' r'); [|exact Hr'].
    apply In_firstn. now exists j.
  - intros (obj & r & Hn & Hr & Hnew). exists obj. split; [exact Hn|].
    apply brings_new_reports. exists r. split; [exact Hr|].
    apply seen_before_false. intros obj' r' Ho Hr'.
    apply In_firstn in Ho as (j & Hj & Hn'). now apply (Hnew j obj' r').
Qed.

(** X6.  No file is lost: for every report a package keeps, some survivor
    package keeps a report on the same file. *)
Theorem every_kept_file_survives
    (todo heap : list value) (files : table) (valid : list nat) :
  first_pass search filters [] [] [] todo = Ok (heap, files, valid) ->
  forall i obj report,
    nth_error todo i = Some obj ->
    In report (kept_reports search filters obj) ->
    exists j obj' report',
      j <= i /\ In j valid /\ nth_error todo j = Some obj' /\
      deref heap j = assigned (kept_reports search filters obj') obj' /\
      In report' (kept_reports search filters obj') /\
      eq (file_val report') (file_val report) = true.
Proof.
  intros H. apply first_pass_closed in H as (-> & -> & Hv).
  rewrite Forall_forall in Hv.
  intros i. induction i as [i IH] using lt_wf_ind. intros obj r Hn Hr.
  assert (hashable (file_val r) = true) as Hh.
  { apply (kept_files_hashable search filters obj).
    - apply Hv. now apply nth_error_In in Hn.
    - unfold kept_files. now apply in_map. }
  destruct (seen_before search filters (firstn i todo) (file_val r)) eqn:Hs.
  - apply seen_before_iff in Hs as (obj0 & r0 & Ho & Hr0 & He).
    apply In_firstn in Ho as (j & Hj & Hn0).
    destruct (IH j Hj obj0 r0 Hn0 Hr0)
      as (k & obj' & r' & Hk & Hin & Hn' & Hd & Hr' & He').
    exists k, obj', r'. repeat split; try assumption; [lia|].
    apply (eq_trans_atom _ (file_val r0)); [|exact He'|exact He].
    apply (kept_files_hashable search filters obj0).
    + apply Hv. now apply nth_error_In in Hn0.
    + unfold kept_files. now apply in_map.
  - assert (brings_new search filters (firstn i todo) obj = true) as Hb.
    { apply brings_new_reports. now exists r. }
    exists i, obj, r. split; [lia|].
    split; [apply survivors_In; now exists obj|]. split; [exact Hn|].
    split; [now rewrite (deref_states _ _ _ _ _ Hn), Hb|].
    split; [exact Hr|]. now apply eq_refl_atom.
Qed.

Lemma found_in_ok fs report found :
  any_match search fs report = Ok found -> found_in search fs report = found.
Proof. unfold found_in. now intros ->. Qed.

Lemma filter_reports_filter reports : forall kept,
  filter_reports search filters reports = Ok kept ->
  kept = filter (fun report => negb (found_in search filters report)) reports.
Proof.
  induction reports as [|r reports IH]; intros kept H.
  - simpl in H. now injection H as <-.
  - simpl in H. bind_inv H. bind_inv H. injection H as <-.
    simpl. rewrite (found_in_ok _ _ _ E), (IH _ E0).
    now destruct a.
Qed.

(** X7.  An entry of [valid_packages] is a package of the input with two
    keys assigned: [raw_reports] is the list of its reports in which no rule
    is found, in their order and not empty, [count] is the length of that
    list; every other key is bound to what it was bound to. *)
Theorem survivor_is_input_package_filtered
    (todo heap : list value) (files : table) (valid : list nat) (i : nat) :
  first_pass search filters [] [] [] todo = Ok (heap, files, valid) ->
  In i valid ->
  exists d raw reports d',
    nth_error todo i = Some (VDict d) /\
    get (VDict d) "raw_reports" (VList []) = Ok raw /\
    iter raw = Ok reports /\
    deref heap i = VDict d' /\
    filter (fun report => negb (found_in search filters report)) reports
    <> [] /\
    dict_get "raw_reports" d'
    = Some (VList (filter (fun report =>
                             negb (found_in search filters report)) reports))
    /\ dict_get "count" d'
       = Some (VInt (Z.of_nat
                       (length (filter (fun report =>
                                  negb (found_in search filters report))
                                  reports))))
    /\ forall k, k <> "raw_reports" -> k <> "count" ->
                 dict_get k d' = dict_get k d.
Proof.
  intros H Hi. apply first_pass_closed in H as (-> & -> & Hv).
  apply survivors_In in Hi as (obj & Hn & Hb).
  rewrite Forall_forall in Hv.
  destruct (Hv obj (nth_error_In _ _ Hn)) as ((d & ->) & HF & _).
  pose proof HF as HF'. unfold filtered_reports in HF'.
  bind_inv HF'. bind_inv HF'. rename a into raw, a0 into reports.
  apply filter_reports_filter in HF'.
  exists d, raw, reports. eexists.
  split; [exact Hn|]. split; [exact E|]. split; [exact E0|].
  split; [rewrite (deref_states _ _ _ _ _ Hn), Hb; reflexivity|].
  rewrite <- HF'. split; [|split; [|split]].
  - apply brings_new_reports in Hb as (r & Hr & _). intros Hnil.
    rewrite Hnil in Hr. destruct Hr.
  - rewrite dict_get_set_other by discriminate. apply dict_get_set_same.
  - apply dict_get_set_same.
  - intros k Hk1 Hk2. now rewrite !dict_get_set_other by congruence.
Qed.

Lemma survivors_from_sorted todo : forall earlier k,
  StronglySorted lt (survivors_from search filters earlier todo k).
Proof.
  induction todo as [|obj todo IH]; intros earlier k; simpl; [constructor|].
  destruct (brings_new search filters earlier obj); simpl; [|apply IH].
  constructor; [apply IH|]. apply Forall_forall. intros i Hi.
  apply survivors_from_ge in Hi. lia.
Qed.

Lemma survivors_from_length todo : forall earlier k,
  length (survivors_from search filters earlier todo k) <= length todo.
Proof.
  induction todo as [|obj todo IH]; intros earlier k; simpl; [lia|].
  rewrite length_app. specialize (IH (earlier ++ [obj]) (S k)).
  destruct (brings_new search filters earlier obj); simpl; lia.
Qed.

(** X8.  The output keeps the order of the input: the entries of
    [valid_packages] are positions of the input in increasing order, so no
    package is there twice and the survivors come in the order of the
    input; [data] ends up no longer than it was, but for the lockfile
    report, which comes last. *)
Theorem output_keeps_input_order (d : dict) (todo : list value)
    (doc' : value) :
  dict_get "data" d = Some (VList todo) ->
  apply_filter search (VDict d) filters = Ok doc' ->
  exists heap files valid lockfile,
    first_pass search filters [] [] [] todo = Ok (heap, files, valid) /\
    doc' = VDict (dict_set "data"
                    (VList (map (deref heap) valid ++ option_list lockfile)) d)
    /\ StronglySorted lt valid
    /\ Forall (fun i => i < length todo) valid
    /\ length (map (deref heap) valid ++ option_list lockfile)
       <= length todo + 1.
Proof.
  intros Hp H.
  assert (dict_has "data" d = true) as Hd
      by (unfold dict_has; now rewrite Hp).
  apply (apply_filter_ok search d filters doc' Hd) in H
    as (packages & todo' & heap & files & valid & lockfile
        & Hp' & Hi & H1 & H2 & ->).
  rewrite Hp in Hp'. injection Hp' as <-. simpl in Hi. injection Hi as <-.
  exists heap, files, valid, lockfile. split; [exact H1|].
  split; [reflexivity|].
  apply first_pass_closed in H1 as (-> & -> & _).
  split; [apply survivors_from_sorted|]. split.
  - apply Forall_forall. intros i Hi.
    apply survivors_In in Hi as (obj & Hn & _).
    apply nth_error_Some. congruence.
  - rewrite length_app, length_map.
    pose proof (survivors_from_length todo [] 0).
    unfold survivors. destruct lockfile; simpl; lia.
Qed.

End Survivors.

(** ** More on the lockfile report *)

Section Lockfile.
Import Py.
Context {Pattern : Type} (search : Pattern -> string -> bool).
Variable filters : list Pattern.

Lemma find_lockfile_some reports r :
  find_lockfile reports = Ok (Some r) ->
  In r reports /\ contains "Cargo.lock" (file_val r) = Ok true.
Proof.
  induction reports as [|x reports IH]; [discriminate|].
  cbn [find_lockfile]. intros H. bind_inv H. bind_inv H.
  destruct a0.
  - injection H as <-. split; [now left|].
    unfold file_val. now rewrite E.
  - destruct (IH H) as (Hin & Hc). split; [now right | exact Hc].
Qed.

Lemma find_lockfile_none reports :
  find_lockfile reports = Ok None ->
  forall r, In r reports -> contains "Cargo.lock" (file_val r) = Ok false.
Proof.
  induction reports as [|x reports IH]; intros H r Hin; [destruct Hin|].
  cbn [find_lockfile] in H. bind_inv H. bind_inv H.
  destruct a0; [discriminate|].
  destruct Hin as [<-|Hin]; [|now apply IH].
  unfold file_val. now rewrite E.
Qed.

(** X9.  The report appended after the survivor packages, if there is one,
    is a report of a package of the input, and [Cargo.lock] is in its
    file. *)
Theorem lockfile_report_is_an_input_report (d : dict) (todo : list value)
    (doc' : value) :
  dict_get "data" d = Some (VList todo) ->
  apply_filter search (VDict d) filters = Ok doc' ->
  exists heap files valid lockfile,
    first_pass search filters [] [] [] todo = Ok (heap, files, valid) /\
    second_pass heap = Ok lockfile /\
    doc' = VDict (dict_set "data"
                    (VList (map (deref heap) valid ++ option_list lockfile)) d)
    /\ forall r,
        lockfile = Some r ->
        contains "Cargo.lock" (file_val r) = Ok true /\
        exists i obj raw reports,
          nth_error todo i = Some obj /\
          get obj "raw_reports" (VList []) = Ok raw /\
          iter raw = Ok reports /\
          In r reports.
Proof.
  intros Hp H.
  assert (dict_has "data" d = true) as Hd
      by (unfold dict_has; now rewrite Hp).
  apply (apply_filter_ok search d filters doc' Hd) in H
    as (packages & todo' & heap & files & valid & lockfile
        & Hp' & Hi & H1 & H2 & ->).
  rewrite Hp in Hp'. injection Hp' as <-. simpl in Hi. injection Hi as <-.
  exists heap, files, valid, lockfile. split; [exact H1|].
  split; [exact H2|]. split; [reflexivity|].
  intros r ->. apply first_pass_closed in H1 as (-> & _ & Hv).
  apply second_pass_found in H2 as (state & Hin & Hs).
  apply In_nth_error in Hin as (i & Hi).
  assert (i < length todo) as Hlt.
  { rewrite <- (states_from_length search filters todo []).
    apply nth_error_Some. unfold states in Hi. congruence. }
  destruct (nth_error todo i) as [obj|] eqn:Hn;
    [|apply nth_error_None in Hn; lia].
  unfold states in Hi. rewrite (states_from_nth _ _ _ _ _ _ Hn) in Hi.
  injection Hi as Hi. simpl in Hi.
  unfold scan_package in Hs. bind_inv Hs. bind_inv Hs. bind_inv Hs.
  apply find_lockfile_some in Hs as (Hr & Hc). split; [exact Hc|].
  rewrite Forall_forall in Hv.
  destruct (Hv obj (nth_error_In _ _ Hn)) as ((o & ->) & HF & _).
  exists i, (VDict o).
  destruct (brings_new search filters (firstn i todo) (VDict o)).
  - subst state. unfold assigned in E0. cbn [get] in E0.
    rewrite dict_get_set_other in E0 by discriminate.
    rewrite dict_get_set_same in E0. injection E0 as <-.
    simpl in E1. injection E1 as <-.
    unfold filtered_reports in HF.
    apply bind_ok in HF as (raw & Hraw & HF).
    apply bind_ok in HF as (reports & Hreports & HF).
    exists raw, reports. repeat split; try assumption.
    now apply (filter_reports_incl search filters reports _ HF).
  - subst state. now exists a0, a1.
Qed.

End Lockfile.

Section LockfileGuarantee.
Import Py.
Context {Pattern : Type} (search : Pattern -> string -> bool).
Variable filters : list Pattern.

(** X10.  When every report of some package is filtered out and one of them
    is on a file that contains [Cargo.lock], a call that returns has appended
    a report after the survivor packages, with [Cargo.lock] in its file. *)
Theorem emptied_package_lockfile_is_reported (d : dict) (todo : list value)
    (doc' : value) (obj : value) (reports : list value) (r : value)
    (s : string) :
  dict_get "data" d = Some (VList todo) ->
  apply_filter search (VDict d) filters = Ok doc' ->
  In obj todo ->
  get obj "raw_reports" (VList []) = Ok (VList reports) ->
  filtered_reports search filters obj = Ok [] ->
  In r reports ->
  file_val r = VStr s ->
  Str.contains "Cargo.lock" s = true ->
  exists heap files valid r',
    first_pass search filters [] [] [] todo = Ok (heap, files, valid) /\
    doc' = VDict (dict_set "data" (VList (map (deref heap) valid ++ [r'])) d)
    /\ contains "Cargo.lock" (file_val r') = Ok true.
Proof.
  intros Hp H Ho Hraw HF Hr Hs Hc.
  assert (dict_has "data" d = true) as Hd
      by (unfold dict_has; now rewrite Hp).
  apply (apply_filter_ok search d filters doc' Hd) in H
    as (packages & todo' & heap & files & valid & lockfile
        & Hp' & Hi & H1 & H2 & ->).
  rewrite Hp in Hp'. injection Hp' as <-. simpl in Hi. injection Hi as <-.
  exists heap, files, valid.
  destruct lockfile as [r'|].
  - exists r'. split; [exact H1|]. split; [reflexivity|].
    apply second_pass_found in H2 as (state & _ & Hscan).
    unfold scan_package in Hscan.
    apply bind_ok in Hscan as (n & _ & Hscan).
    apply bind_ok in Hscan as (raw & _ & Hscan).
    apply bind_ok in Hscan as (rs & _ & Hscan).
    now apply find_lockfile_some in Hscan.
  - exfalso. apply first_pass_closed in H1 as (-> & _ & _).
    apply In_nth_error in Ho as (i & Hn).
    assert (In obj (states search filters todo)) as Hin.
    { apply (nth_error_In _ i). unfold states.
      rewrite (states_from_nth _ _ _ _ _ _ Hn).
      now rewrite (kept_files_nil search filters obj HF). }
    pose proof (second_pass_none _ H2 obj Hin) as Hscan.
    unfold scan_package in Hscan.
    apply bind_ok in Hscan as (n & _ & Hscan).
    rewrite Hraw in Hscan. cbn [bind iter] in Hscan.
    pose proof (find_lockfile_none _ Hscan r Hr) as Hno.
    rewrite Hs in Hno. cbn [contains] in Hno. congruence.
Qed.

End LockfileGuarantee.

(** ** The rules as a set *)

Section RuleSet.
Import Py.
Context {Pattern : Type} (search : Pattern -> string -> bool).

Lemma any_match_str fs report s :
  get report "file" (VStr "") = Ok (VStr s) ->
  any_match search fs report = Ok (existsb (fun p => search p s) fs).
Proof.
  intros H. induction fs as [|regex fs IH]; cbn [any_match existsb];
    [reflexivity|].
  rewrite H. cbn [bind regex_search].
  destruct (search regex s); [reflexivity | exact IH].
Qed.

Lemma any_match_raise regex fs report :
  (forall s, get report "file" (VStr "") <> Ok (VStr s)) ->
  exists e, any_match search (regex :: fs) report = Raise e /\
            forall regex' fs',
              any_match search (regex' :: fs') report = Raise e.
Proof.
  intros H. cbn [any_match].
  destruct (get report "file" (VStr "")) as [file|e]; cbn [bind].
  - destruct file; try (exists TypeError; split; reflexivity).
    now destruct (H s).
  - exists e. split; reflexivity.
Qed.

(** The test of a report depends on the rules as a set. *)
Lemma any_match_same_rules fs1 fs2 report :
  (forall regex, In regex fs1 <-> In regex fs2) ->
  any_match search fs1 report = any_match search fs2 report.
Proof.
  intros H.
  assert (forall s, existsb (fun p => search p s) fs1
                    = existsb (fun p => search p s) fs2) as Hex.
  { intros s. apply eq_true_iff_eq. rewrite !existsb_exists.
    split; intros (p & Hp & Hs); exists p; (split; [now apply H | exact Hs]). }
  destruct (get report "file" (VStr "")) as [[| | |s| |]|e] eqn:E;
    try (rewrite !(any_match_str _ _ _ E); now rewrite Hex).
  all: destruct fs1 as [|p1 fs1], fs2 as [|p2 fs2];
    [reflexivity
    |destruct (proj2 (H p2) (or_introl Logic.eq_refl))
    |destruct (proj1 (H p1) (or_introl Logic.eq_refl))
    |destruct (any_match_raise p1 fs1 report) as (e' & -> & He');
     [intros s; congruence | now rewrite He']].
Qed.

Section SameTests.
Variables fs1 fs2 : list Pattern.
Hypothesis same : forall report,
    any_match search fs1 report = any_match search fs2 report.

Lemma filter_reports_same reports :
  filter_reports search fs1 reports = filter_reports search fs2 reports.
Proof.
  induction reports as [|r reports IH]; cbn [filter_reports];
    [reflexivity|].
  now rewrite same, IH.
Qed.

Lemma visit_package_same visited files valid obj :
  visit_package search fs1 visited files valid obj
  = visit_package search fs2 visited files valid obj.
Proof.
  unfold visit_package, filtered_reports.
  destruct (get obj "pkg" (VStr "")); cbn [bind]; [|reflexivity].
  destruct (get obj "raw_reports" (VList [])); cbn [bind]; [|reflexivity].
  destruct (iter a0); cbn [bind]; [|reflexivity].
  now rewrite filter_reports_same.
Qed.

Lemma first_pass_same todo : forall visited files valid,
  first_pass search fs1 visited files valid todo
  = first_pass search fs2 visited files valid todo.
Proof.
  induction todo as [|obj todo IH]; intros visited files valid;
    cbn [first_pass]; [reflexivity|].
  rewrite visit_package_same.
  destruct (visit_package search fs2 visited files valid obj);
    cbn [bind]; [apply IH | reflexivity].
Qed.

Lemma apply_filter_same doc :
  apply_filter search doc fs1 = apply_filter search doc fs2.
Proof.
  unfold apply_filter.
  destruct (contains "data" doc) as [[|]|]; cbn [bind negb];
    try reflexivity.
  destruct (get doc "data" (VList [])); cbn [bind]; [|reflexivity].
  destruct (iter a); cbn [bind]; [|reflexivity].
  now rewrite first_pass_same.
Qed.

End SameTests.

(** X11.  The order of the rules, and how often a rule comes, do not matter:
    two lists with the same rules give the same result, or raise the same
    exception, on every document. *)
Theorem rule_order_is_irrelevant (fs1 fs2 : list Pattern) (doc : value) :
  (forall regex, In regex fs1 <-> In regex fs2) ->
  apply_filter search doc fs1 = apply_filter search doc fs2.
Proof.
  intros H. apply apply_filter_same. intros report.
  now apply any_match_same_rules.
Qed.

Lemma any_match_app fs1 fs2 report :
  any_match search (fs1 ++ fs2) report
  = (found <- any_match search fs1 report;;
     if found then Ok true else any_match search fs2 report).
Proof.
  induction fs1 as [|regex fs1 IH]; cbn [app any_match bind];
    [reflexivity|].
  destruct (get report "file" (VStr "")) as [file|]; cbn [bind];
    [|reflexivity].
  destruct (regex_search search regex file) as [[|]|]; cbn [bind];
    [reflexivity | exact IH | reflexivity].
Qed.

Lemma any_match_ok_str regex fs report found :
  any_match search (regex :: fs) report = Ok found ->
  exists s, get report "file" (VStr "") = Ok (VStr s).
Proof.
  cbn [any_match]. intros H. bind_inv H. bind_inv H.
  destruct a; try discriminate. now exists s.
Qed.

Lemma filter_reports_no_rules reports :
  filter_reports search [] reports = Ok reports.
Proof.
  induction reports as [|r reports IH]; cbn [filter_reports any_match bind];
    [reflexivity|].
  now rewrite IH.
Qed.

(** X12.  Filtering composes: filtering a list of reports with the rules
    [fs1 ++ fs2] is filtering it with [fs1] and the outcome with [fs2];
    they keep the same reports, or raise the same exception.  (So the rules
    of the rule file and the hardcoded rules that follow them act one after
    the other.) *)
Theorem filter_reports_app (fs1 fs2 : list Pattern) (reports : list value) :
  filter_reports search (fs1 ++ fs2) reports
  = (kept <- filter_reports search fs1 reports;;
     filter_reports search fs2 kept).
Proof.
  destruct fs1 as [|regex fs1].
  - now rewrite filter_reports_no_rules.
  - induction reports as [|r reports IH]; [reflexivity|].
    cbn [filter_reports]. rewrite any_match_app, IH.
    destruct (any_match search (regex :: fs1) r) as [[|]|e] eqn:E;
      cbn [bind]; [| |reflexivity].
    + destruct (filter_reports search (regex :: fs1) reports) as [k|];
        cbn [bind]; [|reflexivity].
      now destruct (filter_reports search fs2 k).
    + destruct (any_match_ok_str _ _ _ _ E) as (s & Hs).
      rewrite (any_match_str fs2 r s Hs). cbn [bind].
      destruct (filter_reports search (regex :: fs1) reports) as [k|];
        cbn [bind filter_reports]; [|reflexivity].
      now rewrite (any_match_str fs2 r s Hs).
Qed.

Lemma filter_reports_shape regex fs reports : forall kept,
  filter_reports search (regex :: fs) reports = Ok kept ->
  Forall (fun report => exists d s,
              report = VDict d /\ file_val report = VStr s) reports.
Proof.
  induction reports as [|r reports IH]; intros kept H; [constructor|].
  cbn [filter_reports] in H. bind_inv H. bind_inv H.
  constructor; [|now apply (IH a0)].
  apply any_match_ok_str in E as (s & Hs).
  destruct r; try discriminate. exists d, s. split; [reflexivity|].
  unfold file_val. now rewrite Hs.
Qed.

(** X13.  With at least one rule, a call returns only if every package is a
    dictionary whose [raw_reports] can be iterated and every report of every
    package is a dictionary with a string for [file] (the empty string when
    it has none): one report that is not makes the whole call raise. *)
Theorem returns_only_on_string_files (regex : Pattern) (fs : list Pattern)
    (d : dict) (todo : list value) (doc' : value) :
  dict_get "data" d = Some (VList todo) ->
  apply_filter search (VDict d) (regex :: fs) = Ok doc' ->
  Forall (fun obj =>
            exists o raw reports,
              obj = VDict o /\
              get obj "raw_reports" (VList []) = Ok raw /\
              iter raw = Ok reports /\
              Forall (fun report => exists r s,
                          report = VDict r /\ file_val report = VStr s)
                     reports) todo.
Proof.
  intros Hp H.
  assert (dict_has "data" d = true) as Hd
      by (unfold dict_has; now rewrite Hp).
  apply (apply_filter_ok search d (regex :: fs) doc' Hd) in H
    as (packages & todo' & heap & files & valid & lockfile
        & Hp' & Hi & H1 & _ & _).
  rewrite Hp in Hp'. injection Hp' as <-. simpl in Hi. injection Hi as <-.
  apply first_pass_closed in H1 as (_ & _ & Hv).
  apply Forall_forall. intros obj Ho. rewrite Forall_forall in Hv.
  destruct (Hv obj Ho) as ((o & ->) & HF & _).
  unfold filtered_reports in HF.
  apply bind_ok in HF as (raw & Hraw & HF).
  apply bind_ok in HF as (reports & Hreports & HF).
  exists o, raw, reports. repeat split; try assumption.
  now apply (filter_reports_shape regex fs reports _ HF).
Qed.

(** X14.  A document that is not a dictionary is never changed: the call
    returns it as it is when [data] is not in it (not an element of the
    list, not a substring of the string), and raises otherwise. *)
Theorem other_documents_are_left_alone (fs : list Pattern)
    (doc doc' : value) :
  (forall d, doc <> VDict d) ->
  (apply_filter search doc fs = Ok doc' <->
   doc' = doc /\ contains "data" doc = Ok false)
  /\ (contains "data" doc = Ok true ->
      apply_filter search doc fs = Raise AttributeError)
  /\ (forall e, contains "data" doc = Raise e ->
                apply_filter search doc fs = Raise e).
Proof.
  intros Hdoc. unfold apply_filter.
  destruct (contains "data" doc) as [[|]|e] eqn:E; cbn [bind negb].
  - assert (get doc "data" (VList []) = Raise AttributeError) as ->.
    { destruct doc; try reflexivity. now destruct (Hdoc d). }
    cbn [bind].
    split; [split; [discriminate | intros [_ H]; discriminate]|].
    split; [reflexivity | discriminate].
  - split; [split; [now intros [= <-] | now intros [-> _]]|].
    split; discriminate.
  - split; [split; [discriminate | intros [_ H]; discriminate]|].
    split; [discriminate | now intros e' [= ->]].
Qed.

End RuleSet.

(** ** [all_files_pkg] *)

Section SeenFiles.
Import Py.
Context {Pattern : Type} (search : Pattern -> string -> bool).
Variable filters : list Pattern.

Lemma keys_table_add k x t : map fst (table_add k x t) = map fst t.
Proof.
  induction t as [|[k' s] t IH]; simpl; [reflexivity|].
  destruct (eq k' k); simpl; [reflexivity | now rewrite IH].
Qed.

Lemma ForallOrdPairs_snoc {A} (R : A -> A -> Prop) l x :
  ForallOrdPairs R l -> Forall (fun a => R a x) l ->
  ForallOrdPairs R (l ++ [x]).
Proof.
  induction 1 as [|a l Ha _ IH]; intros Hx; simpl.
  - constructor; constructor.
  - inversion Hx; subst. constructor; [|now apply IH].
    apply Forall_app. split; [exact Ha | now constructor].
Qed.

Lemma table_mem_false k t :
  table_mem k t = false -> Forall (fun a => eq a k = false) (map fst t).
Proof.
  unfold table_mem. induction t as [|e t IH]; simpl; [constructor|].
  intros H. apply orb_false_iff in H as [He H]. constructor; auto.
Qed.

Lemma visit_report_keys visited pkg_name filtered st r st' :
  visit_report visited pkg_name filtered st r = Ok st' ->
  ForallOrdPairs (fun a b => eq a b = false) (map fst (all_files_pkg st)) ->
  ForallOrdPairs (fun a b => eq a b = false) (map fst (all_files_pkg st')).
Proof.
  unfold visit_report. intros H Hk.
  apply bind_ok in H as (file & _ & H).
  apply bind_ok in H as (seen & Hseen & H).
  unfold table_has in Hseen. destruct (hashable file); [|discriminate].
  injection Hseen as <-.
  destruct (table_mem file (all_files_pkg st)) eqn:Hm;
    apply bind_ok in H as (u & _ & H).
  - injection H as <-. simpl. now rewrite keys_table_add.
  - assert (ForallOrdPairs (fun a b => eq a b = false)
              (map fst (all_files_pkg st ++ [(file, [pkg_name])]))) as Hk'.
    { rewrite map_app. apply ForallOrdPairs_snoc; [exact Hk|].
      now apply table_mem_false. }
    destruct (Nat.ltb 0 (length filtered)); [|now injection H as <-].
    apply bind_ok in H as (p & _ & H). apply bind_ok in H as (q & _ & H).
    destruct (package_in visited (length visited) q (valid_packages st));
      now injection H as <-.
Qed.

Lemma visit_reports_keys visited pkg_name filtered todo : forall st st',
  visit_reports visited pkg_name filtered st todo = Ok st' ->
  ForallOrdPairs (fun a b => eq a b = false) (map fst (all_files_pkg st)) ->
  ForallOrdPairs (fun a b => eq a b = false) (map fst (all_files_pkg st')).
Proof.
  induction todo as [|r todo IH]; intros st st' H Hk.
  - simpl in H. now injection H as <-.
  - simpl in H. apply bind_ok in H as (st1 & E & H).
    apply (IH st1 st' H). eapply visit_report_keys; eassumption.
Qed.

Lemma first_pass_keys todo : forall visited files valid heap files' valid',
  first_pass search filters visited files valid todo
  = Ok (heap, files', valid') ->
  ForallOrdPairs (fun a b => eq a b = false) (map fst files) ->
  ForallOrdPairs (fun a b => eq a b = false) (map fst files').
Proof.
  induction todo as [|obj todo IH];
    intros visited files valid heap files' valid' H Hk.
  - simpl in H. now injection H as _ <- _.
  - simpl in H. apply bind_ok in H as (st & E & H).
    eapply IH; [exact H|].
    unfold visit_package in E.
    apply bind_ok in E as (n & _ & E). apply bind_ok in E as (F & _ & E).
    eapply visit_reports_keys; eassumption.
Qed.

(** X16.  When the first loop ends, [all_files_pkg] has a key equal to a
    file exactly when some package keeps a report on that file, and no two
    of its keys are equal: every file of a kept report is recorded once. *)
Theorem all_files_pkg_records_kept_files
    (todo heap : list value) (files : table) (valid : list nat) :
  first_pass search filters [] [] [] todo = Ok (heap, files, valid) ->
  (forall file,
      table_mem file files = true <->
      exists obj report,
        In obj todo /\ In report (kept_reports search filters obj) /\
        eq (file_val report) file = true)
  /\ ForallOrdPairs (fun a b => eq a b = false) (map fst files).
Proof.
  intros H. split.
  - intros file.
    destruct (first_pass_spec search filters todo [] [] [] [] heap files valid
                (first_pass_inv_start search filters) H)
      as (_ & _ & _ & Hm & _).
    rewrite Hm. simpl. apply seen_before_iff.
  - eapply first_pass_keys; [exact H | constructor].
Qed.

End SeenFiles.

(** ** [main] *)

Section Main.
Import Py.

Lemma not_matches_search (fs : list Re.Pattern) report regex s :
  ~ matches Re.search fs report -> In regex fs -> file_val report = VStr s ->
  Re.search regex s = false.
Proof.
  intros Hn Hin Hs. destruct (Re.search regex s) eqn:E; [|reflexivity].
  destruct Hn. now exists regex, s.
Qed.

(** X17.  Whatever the rule file, the hardcoded rules are applied: in the
    document [main] hands to the writer, every report of every survivor
    package has a string for file that does not end with [/Cargo.lock] and
    contains neither [rustlib/src/rust/library] nor the not-supported
    message of lockbud. *)
Theorem main_applies_hardcoded_rules (rule_lines : list string) (d : dict)
    (todo : list value) (doc' : value) :
  dict_get "data" d = Some (VList todo) ->
  main rule_lines (VDict d) = Ok doc' ->
  exists heap files valid lockfile,
    first_pass Re.search (load_filter_patterns rule_lines) [] [] [] todo
    = Ok (heap, files, valid) /\
    doc' = VDict (dict_set "data"
                    (VList (map (deref heap) valid ++ option_list lockfile)) d)
    /\ forall i,
        In i valid ->
        exists d' reports,
          deref heap i = VDict d' /\
          dict_get "raw_reports" d' = Some (VList reports) /\
          forall report,
            In report reports ->
            exists s,
              file_val report = VStr s /\
              (forall pre, s <> (pre ++ "/Cargo.lock")%string) /\
              Str.contains "rustlib/src/rust/library" s = false /\
              Str.contains "[lockbud] Not supported to display yet." s
              = false.
Proof.
  intros Hp H. unfold main in H.
  set (fs := load_filter_patterns rule_lines) in *.
  assert (dict_has "data" d = true) as Hd
      by (unfold dict_has; now rewrite Hp).
  apply (apply_filter_ok Re.search d fs doc' Hd) in H
    as (packages & todo' & heap & files & valid & lockfile
        & Hp' & Hi & H1 & _ & ->).
  rewrite Hp in Hp'. injection Hp' as <-. simpl in Hi. injection Hi as <-.
  exists heap, files, valid, lockfile. split; [exact H1|].
  split; [reflexivity|].
  apply first_pass_closed in H1 as (-> & -> & Hv).
  intros i Hi. apply survivors_In in Hi as (obj & Hn & Hb).
  rewrite Forall_forall in Hv.
  destruct (Hv obj (nth_error_In _ _ Hn)) as ((o & ->) & HF & _ & Hu).
  rewrite (deref_states _ _ _ _ _ Hn), Hb.
  eexists. exists (kept_reports Re.search fs (VDict o)).
  split; [reflexivity|]. split.
  { rewrite dict_get_set_other by discriminate. apply dict_get_set_same. }
  intros r Hr. rewrite Forall_forall in Hu. specialize (Hu r Hr).
  assert (exists s, file_val r = VStr s) as (s & Hs).
  { unfold filtered_reports in HF.
    apply bind_ok in HF as (raw & _ & HF).
    apply bind_ok in HF as (reports & _ & HF).
    pose proof (filter_reports_incl Re.search fs reports _ HF r Hr) as Hin.
    assert (exists regex rest, fs = regex :: rest) as (regex & rest & Hfs).
    { destruct fs as [|regex rest] eqn:Efs; [|eauto].
      apply (f_equal (@length _)) in Efs. unfold fs, load_filter_patterns in Efs.
      rewrite length_app in Efs. simpl in Efs. lia. }
    rewrite Hfs in HF.
    pose proof (filter_reports_shape Re.search regex rest reports _ HF) as Hall.
    rewrite Forall_forall in Hall.
    destruct (Hall r Hin) as (dr & s & _ & Hs). now exists s. }
  exists s. split; [exact Hs|]. split; [|split].
  - intros pre E.
    assert (Re.search (Re.escape "/Cargo.lock" ++ [Re.Eos]) s = false) as Hno.
    { apply (not_matches_search fs r); [exact Hu| |exact Hs].
      apply builtin_rules_loaded. right. right. left. reflexivity. }
    assert (Re.search (Re.escape "/Cargo.lock" ++ [Re.Eos]) s = true).
    { apply search_lockfile_rule. exists pre. now left. }
    congruence.
  - rewrite <- search_escape.
    apply (not_matches_search fs r); [exact Hu| |exact Hs].
    apply builtin_rules_loaded. do 4 right. left. reflexivity.
  - rewrite <- search_escape.
    apply (not_matches_search fs r); [exact Hu| |exact Hs].
    apply builtin_rules_loaded. do 3 right. left. reflexivity.
Qed.

End Main.

(** ** The further properties at the examples *)

Section MoreInstances.
Import Py Examples.

Lemma lockfile_rule_always_loaded_witness :
  Str.contains "Cargo.lock" "x/Cargo.lock" = true.
Proof.
  apply (proj2 (proj2 (lockfile_rule_always_loaded [])) "x/Cargo.lock").
  reflexivity.
Defined.

Lemma survivors_bring_a_new_file_witness :
  exists obj report,
    nth_error shared_only 0 = Some obj /\
    In report (kept_reports Re.search builtins obj) /\
    forall j obj' report',
      j < 0 -> nth_error shared_only j = Some obj' ->
      In report' (kept_reports Re.search builtins obj') ->
      eq (file_val report') (file_val report) = false.
Proof.
  refine (proj1 (survivors_bring_a_new_file Re.search builtins shared_only
                   _ _ _ _ 0) _).
  - vm_compute. reflexivity.
  - now left.
Defined.

Lemma every_kept_file_survives_witness :
  exists heap files valid,
    first_pass Re.search builtins [] [] [] shared_only
    = Ok (heap, files, valid) /\
    exists j obj' report',
      j <= 1 /\ In j valid /\ nth_error shared_only j = Some obj' /\
      deref heap j = assigned (kept_reports Re.search builtins obj') obj' /\
      In report' (kept_reports Re.search builtins obj') /\
      eq (file_val report') (file_val (report "shared/dep.rs")) = true.
Proof.
  do 3 eexists. split; [vm_compute; reflexivity|].
  refine (every_kept_file_survives Re.search builtins shared_only _ _ _ _
            1 (pkg "b" [report "shared/dep.rs"]) (report "shared/dep.rs")
            _ _).
  - vm_compute. reflexivity.
  - reflexivity.
  - vm_compute. now left.
Defined.

Lemma survivor_is_input_package_filtered_witness :
  exists heap files valid,
    first_pass Re.search builtins [] [] []
      [pkg "p1" [report "x/Cargo.lock"; report "src/main.rs"]]
    = Ok (heap, files, valid) /\
    exists d', deref heap 0 = VDict d' /\
               dict_get "pkg" d' = Some (VStr "p1").
Proof.
  do 3 eexists. split; [vm_compute; reflexivity|].
  destruct (survivor_is_input_package_filtered Re.search builtins
              [pkg "p1" [report "x/Cargo.lock"; report "src/main.rs"]]
              _ _ _ 0 Logic.eq_refl (or_introl Logic.eq_refl))
    as (d & raw & reports & d' & Hn & _ & _ & Hd & _ & _ & _ & Hk).
  exists d'. split; [exact Hd|].
  rewrite Hk by discriminate. injection Hn as <-. reflexivity.
Defined.

Lemma output_keeps_input_order_witness :
  exists heap files valid,
    first_pass Re.search builtins [] [] [] shared_only
    = Ok (heap, files, valid) /\
    StronglySorted lt valid /\ Forall (fun i => i < 2) valid.
Proof.
  destruct (output_keeps_input_order Re.search builtins
              [("data", VList shared_only)] shared_only
              (document [filtered_pkg "a" [report "shared/dep.rs"]])
              Logic.eq_refl Logic.eq_refl)
    as (heap & files & valid & lockfile & H1 & _ & Hs & Hb & _).
  now exists heap, files, valid.
Defined.

Lemma lockfile_report_is_an_input_report_witness :
  exists heap files valid lockfile,
    first_pass Re.search builtins [] [] [] lockfile_then_source
    = Ok (heap, files, valid) /\
    second_pass heap = Ok lockfile /\
    forall r,
      lockfile = Some r ->
      contains "Cargo.lock" (file_val r) = Ok true /\
      exists i obj raw reports,
        nth_error lockfile_then_source i = Some obj /\
        get obj "raw_reports" (VList []) = Ok raw /\
        iter raw = Ok reports /\
        In r reports.
Proof.
  destruct (lockfile_report_is_an_input_report Re.search builtins
              [("data", VList lockfile_then_source)] lockfile_then_source
              (document [filtered_pkg "p2" [report "src/main.rs"];
                         report "x/Cargo.lock"])
              Logic.eq_refl Logic.eq_refl)
    as (heap & files & valid & lockfile & H1 & H2 & _ & H).
  now exists heap, files, valid, lockfile.
Defined.

Lemma emptied_package_lockfile_is_reported_witness :
  exists heap files valid r',
    first_pass Re.search builtins [] [] [] lockfile_then_source
    = Ok (heap, files, valid) /\
    contains "Cargo.lock" (file_val r') = Ok true.
Proof.
  destruct (emptied_package_lockfile_is_reported Re.search builtins
              [("data", VList lockfile_then_source)] lockfile_then_source
              (document [filtered_pkg "p2" [report "src/main.rs"];
                         report "x/Cargo.lock"])
              (pkg "p1" [report "x/Cargo.lock"]) [report "x/Cargo.lock"]
              (report "x/Cargo.lock") "x/Cargo.lock"
              Logic.eq_refl Logic.eq_refl (or_introl Logic.eq_refl)
              Logic.eq_refl Logic.eq_refl (or_introl Logic.eq_refl)
              Logic.eq_refl Logic.eq_refl)
    as (heap & files & valid & r' & H1 & _ & Hc).
  now exists heap, files, valid, r'.
Defined.

Lemma rule_order_is_irrelevant_witness :
  apply_filter Re.search lockfile_and_source builtins
  = apply_filter Re.search lockfile_and_source (rev builtins).
Proof.
  apply (rule_order_is_irrelevant Re.search builtins (rev builtins)).
  intros regex. apply in_rev.
Defined.

Lemma returns_only_on_string_files_witness :
  Forall (fun obj =>
            exists o raw reports,
              obj = VDict o /\
              get obj "raw_reports" (VList []) = Ok raw /\
              iter raw = Ok reports /\
              Forall (fun report => exists r s,
                          report = VDict r /\ file_val report = VStr s)
                     reports) shared_only.
Proof.
  apply (returns_only_on_string_files Re.search
           (hd [] builtins) (tl builtins)
           [("data", VList shared_only)] shared_only
           (document [filtered_pkg "a" [report "shared/dep.rs"]]));
    reflexivity.
Defined.

Lemma other_documents_are_left_alone_witness :
  apply_filter Re.search (VList [VStr "x"]) builtins = Ok (VList [VStr "x"]).
Proof.
  apply (proj1 (other_documents_are_left_alone Re.search builtins
                  (VList [VStr "x"]) (VList [VStr "x"])
                  ltac:(discriminate))).
  split; reflexivity.
Defined.

Lemma all_files_pkg_records_kept_files_witness :
  exists heap files valid,
    first_pass Re.search builtins [] [] [] shared_only
    = Ok (heap, files, valid) /\
    table_mem (VStr "shared/dep.rs") files = true /\
    ForallOrdPairs (fun a b => eq a b = false) (map fst files).
Proof.
  do 3 eexists. split; [vm_compute; reflexivity|].
  split; [reflexivity|].
  refine (proj2 (all_files_pkg_records_kept_files Re.search builtins
                   shared_only _ _ _ _)).
  vm_compute. reflexivity.
Defined.

Lemma main_applies_hardcoded_rules_witness :
  exists heap files valid,
    first_pass Re.search (load_filter_patterns ["special.rs"]) [] [] []
      [pkg "p1" [report "x/Cargo.lock"; report "src/main.rs"]]
    = Ok (heap, files, valid) /\
    forall i,
      In i valid ->
      exists d' reports,
        deref heap i = VDict d' /\
        dict_get "raw_reports" d' = Some (VList reports) /\
        forall report,
          In report reports ->
          exists s,
            file_val report = VStr s /\
            (forall pre, s <> (pre ++ "/Cargo.lock")%string) /\
            Str.contains "rustlib/src/rust/library" s = false /\
            Str.contains "[lockbud] Not supported to display yet." s = false.
Proof.
  destruct (main_applies_hardcoded_rules ["special.rs"]
              [("data", VList [pkg "p1" [report "x/Cargo.lock";
                                         report "src/main.rs"]])]
              [pkg "p1" [report "x/Cargo.lock"; report "src/main.rs"]]
              (document [filtered_pkg "p1" [report "src/main.rs"]])
              Logic.eq_refl Logic.eq_refl)
    as (heap & files & valid & lockfile & H1 & _ & H).
  now exists heap, files, valid.
Defined.

End MoreInstances.
